(** * secure-backend/app.py: a FastAPI service with a health check and a
    token-guarded echo endpoint.

  The development has two layers.  [App] is the translation of app.py
  itself: the [UserData] model, [verify_token], [health_check],
  [process_data] and the module-level configuration.  [Framework] holds the
  parts of FastAPI, Starlette and pydantic that app.py instantiates
  ([HTTPBearer], the request handler that resolves [Depends], the
  validation of a request body against a model, [CORSMiddleware] and the
  router), written after the behaviour of those classes, so that statements
  about HTTP responses can be made about the whole application. *)

From Stdlib Require Import NArith ZArith List String Ascii Bool Lia.
Import ListNotations.

#[local] Set Warnings "-register-all".
#[local] Set Implicit Arguments.

(** ** Python values *)

Module Py.

(** A Python [str] is a sequence of Unicode code points. *)
Definition char := N.
Definition str := list char.

(** A string literal of the source, all of whose characters are ASCII. *)
Definition lit (s : string) : str := map N_of_ascii (list_ascii_of_string s).

(** [a == b] on strings. *)
Fixpoint str_eqb (a b : str) : bool :=
  match a, b with
  | [], [] => true
  | x :: a', y :: b' => N.eqb x y && str_eqb a' b'
  | _, _ => false
  end.

(** [len(s)]: the number of code points. *)
Definition len (s : str) : Z := Z.of_nat (List.length s).

(** The number of bytes of the UTF-8 encoding of a string, which is what a
    byte-oriented length would report. *)
Definition utf8_width (c : char) : nat :=
  if (c <? 128)%N then 1
  else if (c <? 2048)%N then 2
  else if (c <? 65536)%N then 3
  else 4.

Definition utf8_len (s : str) : Z :=
  Z.of_nat (fold_right (fun c n => utf8_width c + n) 0 s).

(** [s.partition(" ")], projected on the parts before and after the first
    space (both empty strings make the middle component redundant). *)
Fixpoint partition_space (s : str) : str * str :=
  match s with
  | [] => ([], [])
  | c :: s' =>
      if (c =? 32)%N then ([], s')
      else let (h, t) := partition_space s' in (c :: h, t)
  end.

(** [s.lower()] on the code points a header value can hold (it is decoded
    as Latin-1): the upper-case letters of ASCII and of Latin-1 move by 32,
    everything else stays. *)
Definition lower_char (c : char) : char :=
  if ((65 <=? c) && (c <=? 90))%N then (c + 32)%N
  else if ((192 <=? c) && (c <=? 222) && negb (c =? 215))%N then (c + 32)%N
  else c.

Definition lower (s : str) : str := map lower_char s.

(** [sep.join(l)]. *)
Fixpoint join (sep : str) (l : list str) : str :=
  match l with
  | [] => []
  | [x] => x
  | x :: l' => x ++ sep ++ join sep l'
  end.

(** [x in l] for a list of strings. *)
Definition mem (x : str) (l : list str) : bool := existsb (str_eqb x) l.

(** The objects [json.loads] produces and the JSON renderer consumes.  A
    [dict] keeps insertion order; a key is looked up at its first
    occurrence.  [VFloat] is a finite float; [VNonFinite] is one of the three
    floats that [json.loads] makes of NaN, Infinity and -Infinity. *)
Inductive value : Type :=
| VNone
| VBool (b : bool)
| VInt (n : Z)
| VFloat (mantissa exponent : Z)
| VNonFinite (sign : option bool)
| VStr (s : str)
| VList (l : list value)
| VDict (d : list (str * value)).

Fixpoint get (k : str) (d : list (str * value)) : option value :=
  match d with
  | [] => None
  | (k', v) :: d' => if str_eqb k k' then Some v else get k d'
  end.

(** [v[k]] when [v] is a dict that has [k]. *)
Definition item (k : string) (v : value) : option value :=
  match v with
  | VDict d => get (lit k) d
  | _ => None
  end.

(** [s.encode("utf-8")] succeeds: no code point of [s] is a surrogate
    (U+D800 to U+DFFF), which a [str] can hold on its own but UTF-8 cannot
    write. *)
Definition is_surrogate (c : char) : bool := ((55296 <=? c) && (c <=? 57343))%N.

Definition encodable (s : str) : bool := forallb (fun c => negb (is_surrogate c)) s.

(** [json.dumps(v, ensure_ascii=False, allow_nan=False).encode("utf-8")]
    succeeds: [json.dumps] raises on a float that is not finite and [encode]
    on a string or key that is not encodable. *)
Fixpoint renderable (v : value) : bool :=
  match v with
  | VNone | VBool _ | VInt _ | VFloat _ _ => true
  | VNonFinite _ => false
  | VStr s => encodable s
  | VList l => forallb renderable l
  | VDict d =>
      forallb (fun kv : str * value => encodable (fst kv) && renderable (snd kv)) d
  end.

(** An object handed to validation: one that [json.loads] made, or the bytes
    of the body themselves, which are known here by what [bytes.decode()]
    makes of them ([None] when it raises). *)
Inductive object : Type :=
| FromJson (v : value)
| RawBytes (text : option str).

End Py.

Import Py.

(** ** datetime *)

Module Datetime.

(** A naive [datetime.datetime] (no tzinfo), as [datetime.now()] returns. *)
Record datetime : Type := mk_datetime {
  year : N; month : N; day : N;
  hour : N; minute : N; second : N; microsecond : N
}.

Definition is_leap (y : N) : bool :=
  ((y mod 4 =? 0) && negb (y mod 100 =? 0) || (y mod 400 =? 0))%N.

Definition days_in_month (y m : N) : N :=
  if (m =? 2)%N then (if is_leap y then 29 else 28)%N
  else if ((m =? 4) || (m =? 6) || (m =? 9) || (m =? 11))%N then 30%N
  else 31%N.

(** The invariant the [datetime] constructor enforces (MINYEAR = 1,
    MAXYEAR = 9999). *)
Definition valid (d : datetime) : bool :=
  ((1 <=? year d) && (year d <=? 9999)
   && (1 <=? month d) && (month d <=? 12)
   && (1 <=? day d) && (day d <=? days_in_month (year d) (month d))
   && (hour d <? 24) && (minute d <? 60) && (second d <? 60)
   && (microsecond d <? 1000000))%N.

(** ["%0wd" % n] for [n < 10^w], which [valid] guarantees wherever
    [isoformat] uses it: the [w] decimal digits of [n], most significant
    first. *)
Fixpoint digits (w : nat) (n : N) : str :=
  match w with
  | O => []
  | S w' => (48 + (n / 10 ^ N.of_nat w') mod 10)%N :: digits w' (n mod 10 ^ N.of_nat w')
  end.

(** [d.isoformat()]: ["%04d-%02d-%02dT%02d:%02d:%02d"], followed by
    [".%06d"] of the microseconds unless they are zero. *)
Definition isoformat (d : datetime) : str :=
  digits 4 (year d) ++ lit "-" ++ digits 2 (month d) ++ lit "-" ++ digits 2 (day d)
  ++ lit "T"
  ++ digits 2 (hour d) ++ lit ":" ++ digits 2 (minute d) ++ lit ":" ++ digits 2 (second d)
  ++ (if (microsecond d =? 0)%N then [] else lit "." ++ digits 6 (microsecond d)).

(** Sequencing of partial readers. *)
#[local] Notation "x <- c ;; k" :=
  (match c with Some x => k | None => None end)
  (at level 61, c at next level, right associativity, only parsing).
#[local] Notation "' p <- c ;; k" :=
  (match c with Some p => k | None => None end)
  (at level 61, p pattern, c at next level, right associativity, only parsing).

(** A reader for the extended ISO-8601 calendar date and time of day,
    [YYYY-MM-DDThh:mm:ss] with an optional six-digit decimal fraction of the
    second; it accepts a string only if every field is in range. *)
Definition is_digit (c : char) : bool := ((48 <=? c) && (c <=? 57))%N.

Fixpoint read_digits (w : nat) (acc : N) (s : str) : option (N * str) :=
  match w with
  | O => Some (acc, s)
  | S w' =>
      match s with
      | c :: s' => if is_digit c then read_digits w' (10 * acc + (c - 48))%N s' else None
      | [] => None
      end
  end.

Definition expect (c : string) (s : str) : option str :=
  match lit c, s with
  | [x], y :: s' => if (x =? y)%N then Some s' else None
  | _, _ => None
  end.

Definition read_fraction (s : str) : option N :=
  match s with
  | [] => Some 0%N
  | _ =>
      match expect "." s with
      | Some s1 =>
          match read_digits 6 0 s1 with
          | Some (us, []) => Some us
          | _ => None
          end
      | None => None
      end
  end.

Definition parse_iso8601 (s : str) : option datetime :=
  '(y, s) <- read_digits 4 0 s ;;
  s <- expect "-" s ;;
  '(mo, s) <- read_digits 2 0 s ;;
  s <- expect "-" s ;;
  '(dd, s) <- read_digits 2 0 s ;;
  s <- expect "T" s ;;
  '(h, s) <- read_digits 2 0 s ;;
  s <- expect ":" s ;;
  '(mi, s) <- read_digits 2 0 s ;;
  s <- expect ":" s ;;
  '(se, s) <- read_digits 2 0 s ;;
  us <- read_fraction s ;;
  let d := mk_datetime y mo dd h mi se us in
  if valid d then Some d else None.

Definition is_iso8601 (s : str) : bool :=
  match parse_iso8601 s with Some _ => true | None => false end.

End Datetime.

Import Datetime.

(** ** The framework that app.py instantiates *)

Module Framework.

(** [fastapi.HTTPException(status_code, detail, headers)]. *)
Record HTTPException : Type := {
  status_code : N;
  detail : str;
  exc_headers : list (str * str)
}.

(** One entry of [RequestValidationError.errors()]; an element of [loc] is
    a string or an integer. *)
Record ErrorDetail : Type := {
  type_ : str;
  loc : list value;
  msg : str;
  input : object;
  ctx : option value
}.

(** How a call ends: with a value, with an [HTTPException], with the
    [RequestValidationError] that the route handler raises, or with any other
    exception, for which the application has no handler. *)
Inductive result (A : Type) : Type :=
| Returned (a : A)
| Raised (e : HTTPException)
| RequestValidationError (errors : list ErrorDetail)
| Unhandled.

Arguments Raised {A} e.
Arguments RequestValidationError {A} errors.
Arguments Unhandled {A}.

(** The successive values of [datetime.now()] while one request is served. *)
Definition Clock := nat -> datetime.

(** What a computation can touch: the state of type [St] that the module
    built at import time, and the clock, of which [reads] counts the
    readings taken so far. *)
Record World (St : Type) : Type := { state : St; reads : nat }.

Definition M (St A : Type) : Type := Clock -> World St -> result A * World St.

Definition ret {St A} (a : A) : M St A := fun _ w => (Returned a, w).

Definition bind {St A B} (c : M St A) (k : A -> M St B) : M St B :=
  fun clk w =>
    match c clk w with
    | (Returned a, w') => k a clk w'
    | (Raised e, w') => (Raised e, w')
        | (RequestValidationError errs, w') => (RequestValidationError errs, w')
    | (Unhandled, w') => (Unhandled, w')
    end.

Definition raise {St A} (e : HTTPException) : M St A := fun _ w => (Raised e, w).

Definition raise_validation {St A} (errs : list ErrorDetail) : M St A :=
  fun _ w => (RequestValidationError errs, w).

(** An exception other than the two above. *)
Definition unhandled {St A} : M St A := fun _ w => (Unhandled, w).

(** Reading the state, and replacing it. *)
Definition get_state {St} : M St St := fun _ w => (Returned (state w), w).

Definition put_state {St} (s : St) : M St unit :=
  fun _ w => (Returned tt, {| state := s; reads := reads w |}).

(** [datetime.now()]. *)
Definition datetime_now {St} : M St datetime :=
  fun clk w => (Returned (clk (reads w)), {| state := state w; reads := S (reads w) |}).

Declare Scope monad_scope.
Delimit Scope monad_scope with monad.
Notation "x <- c ;; k" := (bind c (fun x => k))
  (at level 61, c at next level, right associativity) : monad_scope.

(** *** Requests and responses *)

(** The body of a request, by the branch of the route handler it takes:
    - [Empty]: no bytes at all;
    - [Decoded v]: the Content-Type is JSON or absent and [json.loads]
      returned [v];
    - [Undecodable pos error]: the Content-Type is JSON or absent and
      [json.loads] raised [JSONDecodeError] with that position and message;
    - [Unreadable]: the Content-Type is JSON or absent and [json.loads]
      raised another exception (bytes that are not text, for one);
    - [Undecoded text]: the Content-Type is not JSON, so the bytes are handed
      over as they are; [text] is what [decode()] makes of them. *)
Inductive payload : Type :=
| Empty
| Decoded (v : value)
| Undecodable (pos : Z) (error : string)
| Unreadable
| Undecoded (text : option str).

(** A request, with the headers that the application looks at. *)
Record Request : Type := {
  method : str;
  url_path : str;
  authorization : option str;
  origin : option str;
  cookie : option str;
  access_control_request_method : option str;
  access_control_request_headers : option str;
  body : payload
}.

Inductive content : Type :=
| JSON (v : value)
| Text (s : str).

(** A response: the status, the raw headers (names in lower case; the
    content-length header, which depends on the rendered bytes, is left
    out) and the content that was rendered. *)
Record Response : Type := {
  status : N;
  headers : list (str * str);
  rendered : content
}.

(** [headers.get(name)]. *)
Fixpoint raw_get (k : str) (h : list (str * str)) : option str :=
  match h with
  | [] => None
  | (k', v) :: h' => if str_eqb k k' then Some v else raw_get k h'
  end.

Definition header (name : string) (h : list (str * str)) : option str :=
  raw_get (lower (lit name)) h.

(** [headers[name] = v]: the first entry of that name takes the value and
    later ones go; a new name is appended. *)
Fixpoint raw_replace (k v : str) (seen : bool) (h : list (str * str)) : list (str * str) :=
  match h with
  | [] => []
  | (k', v') :: h' =>
      if str_eqb k k'
      then (if seen then raw_replace k v true h' else (k, v) :: raw_replace k v true h')
      else (k', v') :: raw_replace k v seen h'
  end.

Definition raw_set (k v : str) (h : list (str * str)) : list (str * str) :=
  match raw_get k h with
  | None => h ++ [(k, v)]
  | Some _ => raw_replace k v false h
  end.

Definition set_header (name : string) (v : str) (h : list (str * str)) : list (str * str) :=
  raw_set (lower (lit name)) v h.

(** [headers.update(d)]. *)
Definition update_headers (d h : list (str * str)) : list (str * str) :=
  fold_left (fun acc kv => raw_set (fst kv) (snd kv) acc) d h.

(** [headers.add_vary_header(vary)]. *)
Definition add_vary_header (vary : string) (h : list (str * str)) : list (str * str) :=
  match header "vary" h with
  | Some existing => set_header "vary" (join (lit ", ") [existing; lit vary]) h
  | None => set_header "vary" (lit vary) h
  end.

(** [Response(content, status_code, headers, media_type)]: the given headers
    first, then the content type. *)
Definition make_response (st : N) (hdrs : list (str * str)) (media_type : string)
    (c : content) : Response :=
  {| status := st;
     headers := map (fun kv => (lower (fst kv), snd kv)) hdrs
                ++ [(lit "content-type", lit media_type)];
     rendered := c |}.

(** [JSONResponse(v, status_code, headers)]: the constructor renders the
    content, and raises when that fails ([None]); [json_response] is the
    response it makes when the content renders. *)
Definition json_response (v : value) (st : N) (hdrs : list (str * str)) : Response :=
  make_response st hdrs "application/json" (JSON v).

Definition JSONResponse (v : value) (st : N) (hdrs : list (str * str))
    : option Response :=
  if renderable v then Some (json_response v st hdrs) else None.

(** The outcome of a call that makes a response. *)
Definition constructed {St} (o : option Response) : M St Response :=
  match o with
  | Some response => ret response
  | None => unhandled
  end.

Definition PlainTextResponse (s : str) (st : N) (hdrs : list (str * str)) : Response :=
  make_response st hdrs "text/plain; charset=utf-8" (Text s).

(** *** fastapi.security.HTTPBearer *)

Record HTTPAuthorizationCredentials : Type := {
  scheme : str;
  credentials : str
}.

(** The truth value of a string or of a list: it is not empty. *)
Definition nonempty {A} (s : list A) : bool :=
  match s with [] => false | _ :: _ => true end.

Definition get_authorization_scheme_param (authorization_header_value : option str)
    : str * str :=
  match authorization_header_value with
  | None => ([], [])
  | Some v => if nonempty v then partition_space v else ([], [])
  end.

Definition HTTP_403_FORBIDDEN : N := 403.

(** [HTTPBearer.__call__] of an instance made with [auto_error] at its
    default, [True]: a header that is absent, or has no scheme or no
    credentials, and a scheme other than bearer, are answered by the class
    itself.  app.py names no release of FastAPI; this is the class as it
    stands in the 0.115 releases.  Later releases strip the white space
    around the credentials and answer both refusals with status 401 and
    detail "Not authenticated"; the statements below about the Authorization
    header are put so that they hold of both. *)
Definition HTTPBearer_call {St} (request : Request) : M St HTTPAuthorizationCredentials :=
  let authorization := authorization request in
  let (scheme, credentials) := get_authorization_scheme_param authorization in
  if negb (match authorization with Some a => nonempty a | None => false end
           && nonempty scheme && nonempty credentials)
  then raise {| status_code := HTTP_403_FORBIDDEN;
                detail := lit "Not authenticated";
                exc_headers := [] |}
  else if negb (str_eqb (lower scheme) (lit "bearer"))
  then raise {| status_code := HTTP_403_FORBIDDEN;
                detail := lit "Invalid authentication credentials";
                exc_headers := [] |}
  else ret {| scheme := scheme; credentials := credentials |}.

(** *** pydantic models *)

(** A [BaseModel] subclass comes with the validator pydantic derives from
    its annotated fields. *)
Class BaseModel (D : Type) : Type := {
  model_validate : object -> D + list ErrorDetail
}.

(** The validator of a required field annotated [str]: the key has to be
    there and its value has to be a string (nothing is coerced). *)
Definition str_field (name : string) (d : list (str * value)) : str + ErrorDetail :=
  match get (lit name) d with
    | None =>
      inr {| type_ := lit "missing"; loc := [VStr (lit name)];
             msg := lit "Field required"; input := FromJson (VDict d);
             ctx := None |}
  | Some (VStr s) => inl s
  | Some v =>
      inr {| type_ := lit "string_type"; loc := [VStr (lit name)];
             msg := lit "Input should be a valid string"; input := FromJson v;
             ctx := None |}
  end.

Definition model_attributes_type (o : object) : ErrorDetail :=
  {| type_ := lit "model_attributes_type"; loc := [];
     msg := lit "Input should be a valid dictionary or object to extract fields from";
     input := o; ctx := None |}.

Definition errors_of {A} (r : A + ErrorDetail) : list ErrorDetail :=
  match r with inl _ => [] | inr e => [e] end.

(** *** The handler FastAPI builds for a route *)

Definition at_body (e : ErrorDetail) : ErrorDetail :=
  {| type_ := type_ e; loc := VStr (lit "body") :: loc e; msg := msg e;
     input := input e; ctx := ctx e |}.

(** [request_body_to_args] for a route whose only body parameter is a
    model; a body that is [None] (no bytes, or the JSON [null]) counts as a
    missing parameter. *)
Definition request_body_to_args {D} `{BaseModel D} (received_body : object)
    : D + list ErrorDetail :=
  match received_body with
  | FromJson VNone =>
      inr [ {| type_ := lit "missing"; loc := [VStr (lit "body")];
               msg := lit "Field required"; input := FromJson VNone;
               ctx := None |} ]
  | o =>
      match model_validate o with
      | inl data => inl data
      | inr errors => inr (map at_body errors)
      end
  end.

(** The error for bytes that [json.loads] rejects with [JSONDecodeError]. *)
Definition json_invalid (pos : Z) (error : string) : ErrorDetail :=
  {| type_ := lit "json_invalid"; loc := [VStr (lit "body"); VInt pos];
     msg := lit "JSON decode error"; input := FromJson (VDict []);
     ctx := Some (VDict [(lit "error", VStr (lit error))]) |}.

(** The body handed to validation: [None] when there were no bytes, the
    decoded object, or the bytes themselves. *)
Definition received_body (b : payload) : object :=
  match b with
  | Decoded v => FromJson v
  | Undecoded text => RawBytes text
  | _ => FromJson VNone
  end.

(** [get_request_handler] for an endpoint [endpoint(data: D, auth = Depends(dependency))]:
    the body is read (a [JSONDecodeError] becomes a validation error, any
    other exception an [HTTPException] with status 400), then the dependency
    is resolved (an exception it raises ends the request), then the body is
    validated, and only then is the endpoint called and the response made of
    what it returns. *)
Definition request_handler_with_body {St D A} `{BaseModel D}
    (dependency : Request -> M St A) (endpoint : D -> A -> M St value)
    (request : Request) : M St Response :=
  match body request with
  | Undecodable pos error => raise_validation [json_invalid pos error]
  | Unreadable =>
      raise {| status_code := 400;
               detail := lit "There was an error parsing the body";
               exc_headers := [] |}
  | _ =>
      (auth <- dependency request ;;
       match request_body_to_args (received_body (body request)) with
       | inr errors => raise_validation errors
       | inl data =>
           raw_response <- endpoint data auth ;;
           constructed (JSONResponse raw_response 200 [])
       end)%monad
  end.

(** [get_request_handler] for an endpoint without parameters. *)
Definition request_handler {St} (endpoint : M St value) (request : Request)
    : M St Response :=
  (raw_response <- endpoint ;; constructed (JSONResponse raw_response 200 []))%monad.

(** [Depends(call)] where [call] itself has one parameter [Depends(sub)]. *)
Definition Depends {St A B} (sub : Request -> M St A) (call : A -> M St B)
    : Request -> M St B :=
  fun request => (a <- sub request ;; call a)%monad.

(** *** Exception handlers *)

Definition http_exception_handler (exc : HTTPException) : option Response :=
  JSONResponse (VDict [(lit "detail", VStr (detail exc))]) (status_code exc) (exc_headers exc).

(** [jsonable_encoder] on an error: bytes are decoded, which can fail; what
    came from JSON stays as it is. *)
Definition jsonable (o : object) : option value :=
  match o with
  | FromJson v => Some v
  | RawBytes text => option_map VStr text
  end.

Definition jsonable_error (e : ErrorDetail) : option value :=
  match jsonable (input e) with
  | Some i =>
      Some (VDict ([(lit "type", VStr (type_ e));
                    (lit "loc", VList (loc e));
                    (lit "msg", VStr (msg e));
                    (lit "input", i)]
                   ++ match ctx e with
                      | Some c => [(lit "ctx", c)]
                      | None => []
                      end))
  | None => None
  end.

Fixpoint all_some {A} (l : list (option A)) : option (list A) :=
  match l with
  | [] => Some []
  | Some a :: l' => option_map (cons a) (all_some l')
  | None :: _ => None
  end.

Definition request_validation_exception_handler (errors : list ErrorDetail)
    : option Response :=
  match all_some (map jsonable_error errors) with
  | Some js => JSONResponse (VDict [(lit "detail", VList js)]) 422 []
  | None => None
  end.

Definition of_option {A} (o : option A) : result A :=
  match o with Some a => Returned a | None => Unhandled end.

(** [ExceptionMiddleware]: an exception that escapes the routes and has a
    handler becomes the response of that handler; an exception without a
    handler, and one that a handler raises, go on. *)
Definition handled (r : result Response) : result Response :=
  match r with
  | Returned response => Returned response
  | Raised e => of_option (http_exception_handler e)
  | RequestValidationError errors =>
      of_option (request_validation_exception_handler errors)
  | Unhandled => Unhandled
  end.

Definition ExceptionMiddleware {St} (app : Request -> M St Response)
    (request : Request) : M St Response :=
  fun clk w => let (r, w') := app request clk w in (handled r, w').

(** *** starlette.middleware.cors.CORSMiddleware *)

Definition ALL_METHODS : list str :=
  map lit ["DELETE"; "GET"; "HEAD"; "OPTIONS"; "PATCH"; "POST"; "PUT"]%string.

Definition SAFELISTED_HEADERS : list str :=
  map lit ["Accept"; "Accept-Language"; "Content-Language"; "Content-Type"]%string.

(** [sorted(set(l))] for strings. *)
Fixpoint str_ltb (a b : str) : bool :=
  match a, b with
  | _, [] => false
  | [], _ :: _ => true
  | x :: a', y :: b' => (x <? y)%N || ((x =? y)%N && str_ltb a' b')
  end.

Fixpoint insert_sorted (x : str) (l : list str) : list str :=
  match l with
  | [] => [x]
  | y :: l' =>
      if str_eqb x y then l
      else if str_ltb x y then x :: l
      else y :: insert_sorted x l'
  end.

Definition sorted_set (l : list str) : list str := fold_right insert_sorted [] l.

(** [s.split(",")] and [s.strip()]. *)
Fixpoint split_comma (s : str) : list str :=
  match s with
  | [] => [[]]
  | c :: s' =>
      if (c =? 44)%N then [] :: split_comma s'
      else match split_comma s' with
           | h :: t => (c :: h) :: t
           | [] => [[c]]
           end
  end.

Definition is_space (c : char) : bool :=
  (((9 <=? c) && (c <=? 13)) || ((28 <=? c) && (c <=? 32)) || (c =? 133) || (c =? 160))%N.

Fixpoint lstrip (s : str) : str :=
  match s with
  | c :: s' => if is_space c then lstrip s' else s
  | [] => []
  end.

Definition strip (s : str) : str := rev (lstrip (rev (lstrip s))).

(** The attributes [__init__] leaves on the instance. *)
Record CORSMiddleware : Type := {
  allow_origins : list str;
  allow_methods : list str;
  allow_headers : list str;
  allow_all_origins : bool;
  allow_all_headers : bool;
  preflight_explicit_allow_origin : bool;
  simple_headers : list (str * str);
  preflight_headers : list (str * str)
}.

(** [CORSMiddleware.__init__] with [allow_origin_regex], [expose_headers]
    and [max_age] at their defaults ([None], [()] and [600]). *)
Definition CORSMiddleware_init (allow_origins allow_methods allow_headers : list str)
    (allow_credentials : bool) : CORSMiddleware :=
  let allow_methods :=
    if mem (lit "*") allow_methods then ALL_METHODS else allow_methods in
  let allow_all_origins := mem (lit "*") allow_origins in
  let allow_all_headers := mem (lit "*") allow_headers in
  let preflight_explicit_allow_origin := negb allow_all_origins || allow_credentials in
  let simple_headers := [] in
  let simple_headers :=
    if allow_all_origins
    then set_header "Access-Control-Allow-Origin" (lit "*") simple_headers
    else simple_headers in
  let simple_headers :=
    if allow_credentials
    then set_header "Access-Control-Allow-Credentials" (lit "true") simple_headers
    else simple_headers in
  let preflight_headers :=
    if preflight_explicit_allow_origin
    then set_header "Vary" (lit "Origin") []
    else set_header "Access-Control-Allow-Origin" (lit "*") [] in
  let preflight_headers :=
    set_header "Access-Control-Max-Age" (lit "600")
      (set_header "Access-Control-Allow-Methods" (join (lit ", ") allow_methods)
         preflight_headers) in
  let allow_headers := sorted_set (SAFELISTED_HEADERS ++ allow_headers) in
  let preflight_headers :=
    if nonempty allow_headers && negb allow_all_headers
    then set_header "Access-Control-Allow-Headers" (join (lit ", ") allow_headers)
           preflight_headers
    else preflight_headers in
  let preflight_headers :=
    if allow_credentials
    then set_header "Access-Control-Allow-Credentials" (lit "true") preflight_headers
    else preflight_headers in
  {| allow_origins := allow_origins;
     allow_methods := allow_methods;
     allow_headers := map lower allow_headers;
     allow_all_origins := allow_all_origins;
     allow_all_headers := allow_all_headers;
     preflight_explicit_allow_origin := preflight_explicit_allow_origin;
     simple_headers := simple_headers;
     preflight_headers := preflight_headers |}.

(** [is_allowed_origin]: without a regular expression, an origin is allowed
    when every origin is, or when it is one of the strings of
    [allow_origins]. *)
Definition is_allowed_origin (self : CORSMiddleware) (origin : str) : bool :=
  if allow_all_origins self then true
  else mem origin (allow_origins self).

Definition preflight_response (self : CORSMiddleware) (requested_origin requested_method : str)
    (requested_headers : option str) : Response :=
  let headers := preflight_headers self in
  let failures := [] in
  let '(headers, failures) :=
    if is_allowed_origin self requested_origin
    then ((if preflight_explicit_allow_origin self
           then set_header "Access-Control-Allow-Origin" requested_origin headers
           else headers), failures)
    else (headers, failures ++ [lit "origin"]) in
  let failures :=
    if negb (mem requested_method (allow_methods self))
    then failures ++ [lit "method"] else failures in
  let '(headers, failures) :=
    match requested_headers with
    | Some rh =>
        if allow_all_headers self
        then (set_header "Access-Control-Allow-Headers" rh headers, failures)
        else if forallb (fun h => mem (strip h) (allow_headers self))
                  (map lower (split_comma rh))
             then (headers, failures)
             else (headers, failures ++ [lit "headers"])
    | None => (headers, failures)
    end in
  match failures with
  | _ :: _ =>
      PlainTextResponse (lit "Disallowed CORS " ++ join (lit ", ") failures) 400 headers
  | [] => PlainTextResponse (lit "OK") 200 headers
  end.

Definition allow_explicit_origin (headers : list (str * str)) (origin : str)
    : list (str * str) :=
  add_vary_header "Origin" (set_header "Access-Control-Allow-Origin" origin headers).

(** [CORSMiddleware.send]: what happens to the headers of the response of
    the wrapped application. *)
Definition cors_send (self : CORSMiddleware) (origin : str) (has_cookie : bool)
    (response : Response) : Response :=
  let headers := update_headers (simple_headers self) (headers response) in
  let headers :=
    if allow_all_origins self && has_cookie
    then allow_explicit_origin headers origin
    else if negb (allow_all_origins self) && is_allowed_origin self origin
    then allow_explicit_origin headers origin
    else headers in
  {| status := status response; headers := headers; rendered := rendered response |}.

Definition is_some {A} (o : option A) : bool :=
  match o with Some _ => true | None => false end.

(** [CORSMiddleware.__call__]. *)
Definition CORSMiddleware_call {St} (self : CORSMiddleware)
    (app : Request -> M St Response) (request : Request) : M St Response :=
  match origin request with
  | None => app request
  | Some o =>
      match access_control_request_method request with
      | Some requested_method =>
          if str_eqb (method request) (lit "OPTIONS")
          then ret (preflight_response self o requested_method
                      (access_control_request_headers request))
          else (response <- app request ;;
                ret (cors_send self o (is_some (cookie request)) response))%monad
      | None =>
          (response <- app request ;;
           ret (cors_send self o (is_some (cookie request)) response))%monad
      end
  end.

(** *** Routing and the application object *)

(** A route, with the name of its endpoint drawn from a type [E]. *)
Record Route (E : Type) : Type := {
  path : str;
  methods : list str;
  endpoint : E
}.

(** The application object: what [FastAPI(...)], [add_middleware] and the
    route decorators have stored in it. *)
Record FastAPI (E : Type) : Type := {
  title : str;
  version : str;
  user_middleware : list CORSMiddleware;
  routes : list (Route E)
}.

Definition FastAPI_init {E} (title version : string) : FastAPI E :=
  {| title := lit title; version := lit version; user_middleware := []; routes := [] |}.

(** [app.add_middleware(...)] puts the middleware in front of the others. *)
Definition add_middleware {E} (m : CORSMiddleware) (app : FastAPI E) : FastAPI E :=
  {| title := title app; version := version app;
     user_middleware := m :: user_middleware app; routes := routes app |}.

(** [@app.get(path)] and [@app.post(path)] append a route. *)
Definition add_api_route {E} (p : string) (ms : list string) (e : E) (app : FastAPI E)
    : FastAPI E :=
  {| title := title app; version := version app;
     user_middleware := user_middleware app;
     routes := routes app ++ [ {| path := lit p; methods := map lit ms; endpoint := e |} ] |}.

(** [Router.__call__] over the routes of the application (the
    documentation routes that FastAPI adds by itself and the redirection of
    a path that differs by its final slash are not modelled): the first route
    whose path and method match handles the request; else the first route
    whose path alone matches answers 405; else the answer is 404. *)
Fixpoint find_route {E} (rs : list (Route E)) (request : Request)
    (partial : option (Route E)) : (Route E) + option (Route E) :=
  match rs with
  | [] => inr partial
  | r :: rs' =>
      if str_eqb (url_path request) (path r)
      then if mem (method request) (methods r) then inl r
           else find_route rs' request
                  (match partial with Some _ => partial | None => Some r end)
      else find_route rs' request partial
  end.

Definition Router_call {St E} (handle : E -> Request -> M St Response)
    (rs : list (Route E)) (request : Request) : M St Response :=
  match find_route rs request None with
  | inl r => handle (endpoint r) request
  | inr (Some r) =>
      raise {| status_code := 405; detail := lit "Method Not Allowed";
               exc_headers := [(lit "Allow", join (lit ", ") (methods r))] |}
  | inr None =>
      raise {| status_code := 404; detail := lit "Not Found"; exc_headers := [] |}
  end.

(** [ServerErrorMiddleware]: an exception that reaches it is answered with
    the plain 500 response, sent as it is. *)
Definition internal_server_error : Response :=
  PlainTextResponse (lit "Internal Server Error") 500 [].

Definition ServerErrorMiddleware {St} (app : Request -> M St Response)
    (request : Request) : M St Response :=
  fun clk w =>
    match app request clk w with
    | (Returned response, w') => (Returned response, w')
    | (_, w') => (Returned internal_server_error, w')
    end.

(** [FastAPI.__call__]: the middleware stack is the server error middleware
    around the user middleware, outermost first, around the exception
    middleware around the router, read from the application object. *)
Definition FastAPI_call {E} (handle : E -> Request -> M (FastAPI E) Response)
    (request : Request) : M (FastAPI E) Response :=
  (app <- get_state ;;
   ServerErrorMiddleware
     (fold_right (fun m inner => CORSMiddleware_call m inner)
        (ExceptionMiddleware (Router_call handle (routes app)))
        (user_middleware app)) request)%monad.

(** The server loop: a request is served from the application object as it
    stands, with the clock readings of its own time, and leaves the
    application object to the next request. *)
Definition serve {E} (handle : E -> Request -> M (FastAPI E) Response)
    (app : FastAPI E) (arrival : Clock * Request) : Response * FastAPI E :=
  let (clk, request) := arrival in
  match FastAPI_call handle request clk {| state := app; reads := 0 |} with
  | (Returned response, w) => (response, state w)
  | (_, w) => (internal_server_error, state w)
  end.

Fixpoint serve_all {E} (handle : E -> Request -> M (FastAPI E) Response)
    (app : FastAPI E) (arrivals : list (Clock * Request)) : list Response * FastAPI E :=
  match arrivals with
  | [] => ([], app)
  | a :: arrivals' =>
      let (response, app') := serve handle app a in
      let (responses, app'') := serve_all handle app' arrivals' in
      (response :: responses, app'')
  end.

End Framework.

Import Framework.

(** ** app.py *)

Module App.

(** [class UserData(BaseModel)], lines 27-30. *)
Record UserData : Type := {
  firstName : str;
  lastName : str;
  textData : str
}.

(** The validator of [UserData]: the body has to be a dict; the three fields
    are validated in the order of their declaration and every failure is
    reported. *)
Definition UserData_validate (o : object) : UserData + list ErrorDetail :=
  match o with
  | FromJson (VDict d) =>
      match str_field "firstName" d, str_field "lastName" d, str_field "textData" d with
      | inl f, inl l, inl t => inl {| firstName := f; lastName := l; textData := t |}
      | f, l, t => inr (errors_of f ++ errors_of l ++ errors_of t)
      end
  | _ => inr [model_attributes_type o]
  end.

#[export] Instance UserData_model : BaseModel UserData :=
  {| model_validate := UserData_validate |}.

(** [security = HTTPBearer()], line 25. *)
Definition security {St} : Request -> M St HTTPAuthorizationCredentials :=
  HTTPBearer_call.

(** [verify_token], lines 32-36. *)
Definition verify_token {St} (credentials : HTTPAuthorizationCredentials) : M St value :=
  let token := Framework.credentials credentials in
  if str_eqb token (lit "demo-secure-token")
  then ret (VDict [(lit "authenticated", VBool true); (lit "user", VStr (lit "demo-user"))])
  else raise {| status_code := 401; detail := lit "Invalid token"; exc_headers := [] |}.

(** [health_check], lines 38-44. *)
Definition health_check {St} : M St value :=
  (timestamp <- datetime_now ;;
   ret (VDict [(lit "status", VStr (lit "healthy"));
               (lit "timestamp", VStr (isoformat timestamp));
               (lit "service", VStr (lit "secure-backend-aks"))]))%monad.

(** [process_data], lines 46-59; the two timestamps are two readings of the
    clock, taken in the order in which the dict display evaluates them. *)
Definition process_data {St} (data : UserData) (auth : value) : M St value :=
  (timestamp <- datetime_now ;;
   processed_at <- datetime_now ;;
   ret (VDict
     [(lit "message",
        VStr (lit "Hello " ++ firstName data ++ lit " " ++ lastName data
              ++ lit ". Received: " ++ textData data));
      (lit "authentication_analysis",
        VDict [(lit "timestamp", VStr (isoformat timestamp));
               (lit "authenticated", VBool true);
               (lit "service", VStr (lit "Private AKS Backend"))]);
      (lit "processing_details",
        VDict [(lit "data_length", VInt (len (textData data)));
               (lit "processed_at", VStr (isoformat processed_at))])]))%monad.

(** The two endpoints that the decorators on lines 38 and 46 register. *)
Inductive Endpoint : Type :=
| health_check_endpoint
| process_data_endpoint.

(** The middleware of lines 14-23. *)
Definition middleware : CORSMiddleware :=
  CORSMiddleware_init
    [lit "https://frontend-webapp-container.azurewebsites.net";
     lit "https://*.azurewebsites.net"]
    [lit "GET"; lit "POST"; lit "OPTIONS"]
    [lit "*"]
    true.

(** The application object after the module has been imported: lines 11,
    14-23, 38 and 46. *)
Definition app : FastAPI Endpoint :=
  add_api_route "/process" ["POST"%string] process_data_endpoint
    (add_api_route "/health" ["GET"%string] health_check_endpoint
       (add_middleware middleware (FastAPI_init "Secure Backend API" "1.0.0"))).

(** The handler of each route, for any function put in the place of
    [process_data] (the route handler is the same for all of them). *)
Definition handle_with (process : UserData -> value -> M (FastAPI Endpoint) value)
    (e : Endpoint) : Request -> M (FastAPI Endpoint) Response :=
  match e with
  | health_check_endpoint => request_handler health_check
  | process_data_endpoint =>
      request_handler_with_body (Depends security verify_token) process
  end.

Definition handle : Endpoint -> Request -> M (FastAPI Endpoint) Response :=
  handle_with process_data.

End App.

Import App.

(** ** Notions used in the statements *)

#[local] Unset Implicit Arguments.

(** A computation leaves the state it runs in as it found it. *)
Definition preserves {St A} (c : M St A) : Prop :=
  forall clk w, state (snd (c clk w)) = state w.

(** The response of the application, as imported, to one request. *)
Definition respond (clk : Clock) (request : Request) : Response :=
  fst (serve handle app (clk, request)).

(** The same with another function in the place of [process_data], together
    with the number of clock readings taken. *)
Definition respond_with (process : UserData -> value -> M (FastAPI Endpoint) value)
    (clk : Clock) (request : Request) : Response * nat :=
  match FastAPI_call (handle_with process) request clk {| state := app; reads := 0 |} with
  | (Returned response, w) => (response, reads w)
  | (_, w) => (internal_server_error, reads w)
  end.

(** A field of a JSON response, by the keys that lead to it. *)
Fixpoint lookup (keys : list string) (v : value) : option value :=
  match keys with
  | [] => Some v
  | k :: keys' =>
      match item k v with
      | Some v' => lookup keys' v'
      | None => None
      end
  end.

Definition field (keys : list string) (r : Response) : option value :=
  match rendered r with
  | JSON v => lookup keys v
  | Text _ => None
  end.

(** The value of an Authorization header, [scheme credentials]. *)
Definition authorization_value (scheme credentials : str) : str :=
  scheme ++ 32%N :: credentials.

(** What the CORS middleware does to the response of the application it
    wraps when the request is not a preflight request. *)
Definition with_cors (self : CORSMiddleware) (request : Request) (response : Response)
    : Response :=
  match origin request with
  | None => response
  | Some o => cors_send self o (is_some (cookie request)) response
  end.

(** What [verify_token] hands out and what it raises. *)
Definition authenticated_context : value :=
  VDict [(lit "authenticated", VBool true); (lit "user", VStr (lit "demo-user"))].

Definition invalid_token : HTTPException :=
  {| status_code := 401; detail := lit "Invalid token"; exc_headers := [] |}.

(** The dict that [process_data] returns for [data] when the clock reads
    [t1] and then [t2]. *)
Definition processed (t1 t2 : datetime) (data : UserData) : value :=
  VDict
    [(lit "message",
       VStr (lit "Hello " ++ firstName data ++ lit " " ++ lastName data
             ++ lit ". Received: " ++ textData data));
     (lit "authentication_analysis",
       VDict [(lit "timestamp", VStr (isoformat t1));
              (lit "authenticated", VBool true);
              (lit "service", VStr (lit "Private AKS Backend"))]);
     (lit "processing_details",
       VDict [(lit "data_length", VInt (len (textData data)));
              (lit "processed_at", VStr (isoformat t2))])].

(** The fields of [UserData] and the ones a dict fails to give as text. *)
Definition fields : list string := ["firstName"; "lastName"; "textData"]%string.

Definition is_text (d : list (str * value)) (f : string) : bool :=
  match get (lit f) d with
  | Some (VStr _) => true
  | _ => false
  end.

Definition failing (d : list (str * value)) : list string :=
  filter (fun f => negb (is_text d f)) fields.

(** ** Sample requests *)

Module Examples.

(** A clock that starts at noon and advances by a microsecond per reading. *)
Definition noon : Clock := fun n => mk_datetime 2024 2 29 12 0 0 (N.of_nat n).

Definition post_process (auth : option string) (org : option string) (b : payload)
    : Request :=
  {| method := lit "POST"; url_path := lit "/process";
     authorization := option_map lit auth; origin := option_map lit org;
     cookie := None;
     access_control_request_method := None;
     access_control_request_headers := None;
     body := b |}.

Definition get_health (org : option string) : Request :=
  {| method := lit "GET"; url_path := lit "/health";
     authorization := None; origin := option_map lit org;
     cookie := None;
     access_control_request_method := None;
     access_control_request_headers := None;
     body := Empty |}.

Definition user_data (f l t : str) : list (str * value) :=
  [(lit "firstName", VStr f); (lit "lastName", VStr l); (lit "textData", VStr t)].

Definition ada : list (str * value) :=
  user_data (lit "Ada") (lit "Lovelace") (lit "hello").

(** "héllo": five characters, six bytes in UTF-8. *)
Definition hello_accent : str := [104; 233; 108; 108; 111]%N.

Definition frontend : string := "https://frontend-webapp-container.azurewebsites.net".

(** A string of one code point, a high surrogate with no low surrogate after
    it, as [json.loads] makes of the JSON text "\ud83d". *)
Definition lone_surrogate : str := [55357]%N.

End Examples.

(** ** Further notions *)

(** A preflight request, as the CORS middleware recognises one among the
    requests that carry an origin. *)
Definition preflight (request : Request) : bool :=
  str_eqb (method request) (lit "OPTIONS")
  && is_some (access_control_request_method request).

(** The same request sent without an Origin header. *)
Definition without_origin (request : Request) : Request :=
  {| method := method request; url_path := url_path request;
     authorization := authorization request; origin := None;
     cookie := cookie request;
     access_control_request_method := access_control_request_method request;
     access_control_request_headers := access_control_request_headers request;
     body := body request |}.

(** The answer that leaves the application for an outcome of the routes
    when the request is not a preflight request: the response of the routes
    or of an exception handler goes through the CORS middleware; an exception
    that is not handled is answered by the server error middleware, past
    the CORS middleware. *)
Definition finish (self : CORSMiddleware) (request : Request) (r : result Response)
    : Response :=
  match handled r with
  | Returned response => with_cors self request response
  | _ => internal_server_error
  end.

(** The body could be read: there were no bytes, or they decoded, or they
    were left as they are. *)
Definition readable (b : payload) : bool :=
  match b with
  | Undecodable _ _ | Unreadable => false
  | _ => true
  end.

(** An Authorization header that gives [HTTPBearer] no bearer credentials:
    it is absent, or nothing follows its first space, or what precedes its
    first space is not "bearer" in any letter case. *)
Definition no_bearer_credentials (a : option str) : bool :=
  match a with
  | None => true
  | Some v =>
      negb (nonempty (snd (partition_space v)))
      || negb (str_eqb (lower (fst (partition_space v))) (lit "bearer"))
  end.


(** What the routes and the exception handlers hand to the CORS middleware:
    nothing (an exception goes on), or a response that is not a 500 and has
    the content type for headers, after an Allow header when the method was
    refused. *)
Definition plain_result (y : result Response) : Prop :=
  y = Unhandled
  \/ exists r,
       y = Returned r /\ status r <> 500%N
       /\ (headers r = [(lit "content-type", lit "application/json")]
           \/ exists v, headers r = [(lit "allow", v);
                                     (lit "content-type", lit "application/json")]).

Definition plain (x : result Response) : Prop := plain_result (handled x).

(** ** Facts about strings *)

Lemma str_eqb_refl (a : str) : str_eqb a a = true.
Proof.
  induction a as [|x a IH]; simpl; [reflexivity|].
  now rewrite N.eqb_refl, IH.
Qed.

Lemma str_eqb_eq (a b : str) : str_eqb a b = true <-> a = b.
Proof.
  split; [|intros ->; apply str_eqb_refl].
  revert b; induction a as [|x a IH]; intros [|y b]; simpl; try discriminate; auto.
  intros H; apply andb_prop in H; destruct H as [Hx Hab].
  apply N.eqb_eq in Hx; subst y; f_equal; auto.
Qed.

Lemma str_eqb_neq (a b : str) : str_eqb a b = false <-> a <> b.
Proof.
  split.
  - intros H E; apply str_eqb_eq in E; congruence.
  - intros H; destruct (str_eqb a b) eqn:E; [|reflexivity].
    apply str_eqb_eq in E; contradiction.
Qed.

(** A scheme that reads "bearer" once lowered has no space in it, so the
    header splits at the space that follows it. *)
Lemma lower_space (s : str) : In 32%N s -> In 32%N (lower s).
Proof.
  intros H; unfold lower; change 32%N with (lower_char 32%N).
  now apply in_map.
Qed.

Lemma partition_space_app (s t : str) :
  ~ In 32%N s -> partition_space (s ++ 32%N :: t) = (s, t).
Proof.
  induction s as [|c s IH]; simpl; intros H; [reflexivity|].
  destruct (N.eqb_spec c 32); [exfalso; apply H; left; assumption|].
  rewrite IH; [reflexivity|]; intros Hs; apply H; right; assumption.
Qed.

Lemma bearer_no_space (sch : str) : lower sch = lit "bearer" -> ~ In 32%N sch.
Proof.
  intros E H; apply lower_space in H; rewrite E in H.
  vm_compute in H; intuition discriminate.
Qed.

(** ** Facts about [isoformat] *)

Lemma pow10_pos (w : nat) : (0 < 10 ^ N.of_nat w)%N.
Proof. apply N.neq_0_lt_0, N.pow_nonzero; discriminate. Qed.

Lemma pow10_succ (w : nat) : (10 ^ N.of_nat (S w) = 10 * 10 ^ N.of_nat w)%N.
Proof. rewrite Nat2N.inj_succ; apply N.pow_succ_r'. Qed.

Lemma read_digits_digits (w : nat) :
  forall (n acc : N) (rest : str),
    (n < 10 ^ N.of_nat w)%N ->
    read_digits w acc (digits w n ++ rest) = Some (acc * 10 ^ N.of_nat w + n, rest)%N.
Proof.
  induction w as [|w IH]; intros n acc rest Hn.
  - simpl in *. f_equal; f_equal; lia.
  - rewrite pow10_succ in *.
    pose proof (pow10_pos w) as Hp.
    change (digits (S w) n) with
      ((48 + (n / 10 ^ N.of_nat w) mod 10)%N :: digits w (n mod 10 ^ N.of_nat w)).
    cbn [List.app read_digits].
    assert (Hq : (n / 10 ^ N.of_nat w < 10)%N)
      by (apply N.Div0.div_lt_upper_bound; lia).
    assert (Hr : (n mod 10 ^ N.of_nat w < 10 ^ N.of_nat w)%N)
      by (apply N.mod_lt; lia).
    assert (Hdm : (n = 10 ^ N.of_nat w * (n / 10 ^ N.of_nat w) + n mod 10 ^ N.of_nat w)%N)
      by (apply N.div_mod; lia).
    rewrite (N.mod_small _ _ Hq).
    specialize (IH (n mod 10 ^ N.of_nat w)%N).
    remember (10 ^ N.of_nat w)%N as p eqn:Ep.
    remember (n / p)%N as q eqn:Eq.
    remember (n mod p)%N as r eqn:Er.
    clear Ep Eq Er.
    assert (Hd : is_digit (48 + q)%N = true).
    { unfold is_digit; apply andb_true_intro; split; apply N.leb_le; lia. }
    rewrite Hd, IH by assumption.
    replace (48 + q - 48)%N with q by lia.
    f_equal; f_equal; nia.
Qed.

Lemma read_digits_exact (w : nat) (n : N) (rest : str) :
  (n < 10 ^ N.of_nat w)%N -> read_digits w 0 (digits w n ++ rest) = Some (n, rest).
Proof. intros H; rewrite read_digits_digits by assumption; reflexivity. Qed.

Lemma days_in_month_le (y m : N) : (days_in_month y m <= 31)%N.
Proof.
  unfold days_in_month.
  destruct (m =? 2)%N; [destruct (is_leap y); lia|].
  destruct ((m =? 4) || (m =? 6) || (m =? 9) || (m =? 11))%N; lia.
Qed.

Lemma expect_app (a : ascii) (rest : str) :
  expect (String a EmptyString) (lit (String a EmptyString) ++ rest) = Some rest.
Proof. unfold expect, lit; simpl; now rewrite N.eqb_refl. Qed.

(** Reading back what [isoformat] wrote gives the datetime it was given. *)
Lemma parse_isoformat (d : datetime) :
  valid d = true -> parse_iso8601 (isoformat d) = Some d.
Proof.
  intros Hv. pose proof Hv as Hv'.
  unfold valid in Hv'.
  repeat (apply andb_prop in Hv'; destruct Hv' as [Hv' ?]).
  repeat match goal with
         | H : (_ <=? _)%N = true |- _ => apply N.leb_le in H
         | H : (_ <? _)%N = true |- _ => apply N.ltb_lt in H
         end.
  pose proof (days_in_month_le (year d) (month d)).
  unfold parse_iso8601, isoformat.
  repeat (rewrite read_digits_exact by (simpl; lia); cbv beta iota;
          try (rewrite expect_app; cbv beta iota)).
  match goal with
  | |- context [read_fraction ?x] =>
      assert (Hf : read_fraction x = Some (microsecond d))
  end.
  { destruct (N.eqb_spec (microsecond d) 0) as [E|E]; [now rewrite E|].
    unfold read_fraction.
    change (lit "." ++ digits 6 (microsecond d)) with (46%N :: digits 6 (microsecond d)).
    change (expect "." (46%N :: digits 6 (microsecond d)))
      with (Some (digits 6 (microsecond d))).
    cbv beta iota.
    rewrite <- (app_nil_r (digits 6 (microsecond d))).
    rewrite read_digits_exact by (simpl; lia). reflexivity. }
  rewrite Hf; cbv beta iota zeta.
  destruct d; simpl in *. rewrite Hv. reflexivity.
Qed.

(** ** Facts about rendering *)

Lemma encodable_app (a b : str) : encodable (a ++ b) = encodable a && encodable b.
Proof. unfold encodable; apply forallb_app. Qed.

Lemma encodable_lit (s : string) : encodable (lit s) = true.
Proof.
  unfold encodable, lit; apply forallb_forall; intros c Hc.
  apply in_map_iff in Hc; destruct Hc as [a [<- _]].
  pose proof (N_ascii_bounded a) as Hb.
  unfold is_surrogate; apply negb_true_iff, andb_false_iff; left.
  apply N.leb_gt; lia.
Qed.

Lemma encodable_digits (w : nat) (n : N) : encodable (digits w n) = true.
Proof.
  revert n; induction w as [|w IH]; intros n; [reflexivity|].
  change (digits (S w) n) with
    ((48 + (n / 10 ^ N.of_nat w) mod 10)%N :: digits w (n mod 10 ^ N.of_nat w)).
  unfold encodable in *; cbn [forallb]; rewrite IH, andb_true_r.
  assert (H : ((n / 10 ^ N.of_nat w) mod 10 < 10)%N) by (apply N.mod_lt; discriminate).
  unfold is_surrogate; apply negb_true_iff, andb_false_iff; left.
  apply N.leb_gt; lia.
Qed.

Lemma encodable_isoformat (d : datetime) : encodable (isoformat d) = true.
Proof.
  unfold isoformat.
  repeat rewrite encodable_app; rewrite !encodable_digits, !encodable_lit.
  destruct (microsecond d =? 0)%N; [reflexivity|].
  now rewrite encodable_app, encodable_digits, encodable_lit.
Qed.

(** What [process_data] returns can be rendered exactly when the three strings
    of the input can be encoded. *)
Lemma renderable_processed (t1 t2 : datetime) (data : UserData) :
  renderable (processed t1 t2 data)
  = encodable (firstName data) && encodable (lastName data) && encodable (textData data).
Proof.
  unfold processed; cbn [renderable forallb fst snd].
  rewrite !encodable_isoformat, !encodable_app, !encodable_lit.
  cbn [andb]; rewrite !andb_true_r.
  destruct (encodable (firstName data)), (encodable (lastName data)),
    (encodable (textData data)); reflexivity.
Qed.

(** ** Facts about the monad *)

Lemma bind_returned {St A B} (c : M St A) (k : A -> M St B) clk w a w' :
  c clk w = (Returned a, w') -> bind c k clk w = k a clk w'.
Proof. unfold bind; now intros ->. Qed.

Lemma bind_raised {St A B} (c : M St A) (k : A -> M St B) clk w e w' :
  c clk w = (Raised e, w') -> bind c k clk w = (Raised e, w').
Proof. unfold bind; now intros ->. Qed.

Lemma preserves_ret {St A} (a : A) : preserves (@ret St A a).
Proof. intros clk w; reflexivity. Qed.

Lemma preserves_raise {St A} e : preserves (@raise St A e).
Proof. intros clk w; reflexivity. Qed.

Lemma preserves_raise_validation {St A} errs : preserves (@raise_validation St A errs).
Proof. intros clk w; reflexivity. Qed.

Lemma preserves_unhandled {St A} : preserves (@unhandled St A).
Proof. intros clk w; reflexivity. Qed.

Lemma preserves_constructed {St} o : preserves (@constructed St o).
Proof. destruct o; intros clk w; reflexivity. Qed.

Lemma preserves_get_state {St} : preserves (@get_state St).
Proof. intros clk w; reflexivity. Qed.

Lemma preserves_datetime_now {St} : preserves (@datetime_now St).
Proof. intros clk w; reflexivity. Qed.

Lemma preserves_bind {St A B} (c : M St A) (k : A -> M St B) :
  preserves c -> (forall a, preserves (k a)) -> preserves (bind c k).
Proof.
  intros Hc Hk clk w; unfold bind.
  specialize (Hc clk w).
  destruct (c clk w) as [[a|e|errs|] w']; simpl in *; try assumption.
  rewrite Hk; assumption.
Qed.

Create HintDb frame.

#[local] Hint Resolve preserves_ret preserves_raise preserves_raise_validation
  preserves_unhandled preserves_constructed
  preserves_get_state preserves_datetime_now : frame.

Ltac frame :=
  repeat first
    [ apply preserves_bind; [|intros ?]
    | solve [auto with frame] ].

(** ** The parts leave the application object alone *)

Lemma preserves_HTTPBearer_call {St} (request : Request) :
  preserves (@HTTPBearer_call St request).
Proof.
  unfold HTTPBearer_call.
  destruct (get_authorization_scheme_param (authorization request)) as [sch cred].
  repeat match goal with |- context [if ?b then _ else _] => destruct b end;
    auto with frame.
Qed.

Lemma preserves_verify_token {St} credentials :
  preserves (@verify_token St credentials).
Proof.
  unfold verify_token.
  destruct (str_eqb _ _); auto with frame.
Qed.

Lemma preserves_health_check {St} : preserves (@health_check St).
Proof. unfold health_check; frame. Qed.

Lemma preserves_process_data {St} data auth : preserves (@process_data St data auth).
Proof. unfold process_data; frame. Qed.

#[local] Hint Resolve preserves_HTTPBearer_call preserves_verify_token
  preserves_health_check preserves_process_data : frame.

Lemma preserves_request_handler {St} (endpoint : M St value) request :
  preserves endpoint -> preserves (request_handler endpoint request).
Proof. intros H; unfold request_handler; frame. Qed.

Lemma preserves_request_handler_with_body {St D A} `{BaseModel D}
    (dependency : Request -> M St A) (endpoint : D -> A -> M St value) request :
  (forall r, preserves (dependency r)) ->
  (forall d a, preserves (endpoint d a)) ->
  preserves (request_handler_with_body dependency endpoint request).
Proof.
  intros Hd He; unfold request_handler_with_body.
  destruct (body request); auto with frame;
    (apply preserves_bind; [apply Hd|intros auth]);
    destruct (request_body_to_args _); auto with frame;
    (apply preserves_bind; [apply He|intros raw]); auto with frame.
Qed.

Lemma preserves_Depends {St A B} (sub : Request -> M St A) (call : A -> M St B) request :
  (forall r, preserves (sub r)) -> (forall a, preserves (call a)) ->
  preserves (Depends sub call request).
Proof. intros Hs Hc; unfold Depends; apply preserves_bind; auto. Qed.

Lemma preserves_ExceptionMiddleware {St} (inner : Request -> M St Response) request :
  (forall r, preserves (inner r)) -> preserves (ExceptionMiddleware inner request).
Proof.
  intros H clk w; unfold ExceptionMiddleware.
  specialize (H request clk w).
  destruct (inner request clk w) as [r w']; assumption.
Qed.

Lemma preserves_ServerErrorMiddleware {St} (inner : Request -> M St Response) request :
  (forall r, preserves (inner r)) -> preserves (ServerErrorMiddleware inner request).
Proof.
  intros H clk w; unfold ServerErrorMiddleware.
  specialize (H request clk w).
  destruct (inner request clk w) as [[r|e|errs|] w']; assumption.
Qed.

Lemma preserves_CORSMiddleware_call {St} self (inner : Request -> M St Response) request :
  (forall r, preserves (inner r)) -> preserves (CORSMiddleware_call self inner request).
Proof.
  intros H; unfold CORSMiddleware_call.
  destruct (origin request); [|apply H].
  destruct (access_control_request_method request);
    [destruct (str_eqb _ _)|]; auto with frame;
    (apply preserves_bind; [apply H|intros r]); auto with frame.
Qed.

Lemma preserves_Router_call {St E} (h : E -> Request -> M St Response) rs request :
  (forall e r, preserves (h e r)) -> preserves (Router_call h rs request).
Proof.
  intros H; unfold Router_call.
  destruct (find_route rs request None) as [r|[r|]]; auto with frame.
Qed.

Lemma preserves_stack {St} (ms : list CORSMiddleware) (inner : Request -> M St Response) :
  (forall r, preserves (inner r)) ->
  forall r, preserves (fold_right (fun m i => CORSMiddleware_call m i) inner ms r).
Proof.
  intros H; induction ms as [|m ms IH]; simpl; [assumption|].
  intros r; apply preserves_CORSMiddleware_call; assumption.
Qed.

Lemma preserves_FastAPI_call {E} (h : E -> Request -> M (FastAPI E) Response) request :
  (forall e r, preserves (h e r)) -> preserves (FastAPI_call h request).
Proof.
  intros H; unfold FastAPI_call.
  apply preserves_bind; [auto with frame|intros a].
  apply preserves_ServerErrorMiddleware; intros r0.
  apply preserves_stack; intros r.
  apply preserves_ExceptionMiddleware; intros r'.
  apply preserves_Router_call; assumption.
Qed.

Lemma preserves_handle_with process e request :
  (forall d a, preserves (process d a)) -> preserves (handle_with process e request).
Proof.
  intros Hp; destruct e; simpl.
  - apply preserves_request_handler; auto with frame.
  - apply preserves_request_handler_with_body; [|assumption].
    intros r; apply preserves_Depends; auto with frame.
Qed.

Lemma serve_state {E} (h : E -> Request -> M (FastAPI E) Response) s arrival :
  (forall e r, preserves (h e r)) -> snd (serve h s arrival) = s.
Proof.
  intros H; destruct arrival as [clk request]; unfold serve.
  pose proof (preserves_FastAPI_call h request H clk {| state := s; reads := 0 |}) as P.
  destruct (FastAPI_call h request clk _) as [[r|e|errs|] w']; exact P.
Qed.

Lemma serve_all_spec {E} (h : E -> Request -> M (FastAPI E) Response) s arrivals :
  (forall e r, preserves (h e r)) ->
  serve_all h s arrivals = (map (fun a => fst (serve h s a)) arrivals, s).
Proof.
  intros H; induction arrivals as [|a arrivals IH]; simpl; [reflexivity|].
  pose proof (serve_state h s a H) as Hs.
  destruct (serve h s a) as [r s']; simpl in Hs; subst s'.
  rewrite IH; reflexivity.
Qed.

(** ** How the application, as imported, answers *)

Lemma with_cors_status self request r : status (with_cors self request r) = status r.
Proof. unfold with_cors; destruct (origin request); reflexivity. Qed.

Lemma with_cors_rendered self request r : rendered (with_cors self request r) = rendered r.
Proof. unfold with_cors; destruct (origin request); reflexivity. Qed.

Lemma with_cors_field self request keys r :
  field keys (with_cors self request r) = field keys r.
Proof. unfold field; now rewrite with_cors_rendered. Qed.

Lemma finish_returned self request r :
  finish self request (Returned r) = with_cors self request r.
Proof. reflexivity. Qed.

Lemma finish_raised self request e :
  renderable (VDict [(lit "detail", VStr (detail e))]) = true ->
  finish self request (Raised e)
  = with_cors self request
      (json_response (VDict [(lit "detail", VStr (detail e))]) (status_code e)
         (exc_headers e)).
Proof.
  intros H; unfold finish, handled, http_exception_handler, JSONResponse.
  rewrite H; reflexivity.
Qed.

Lemma finish_unhandled self request : finish self request Unhandled = internal_server_error.
Proof. reflexivity. Qed.

(** Outside preflight requests, what leaves the application is [finish] of
    what the routes did. *)
Lemma stack_not_preflight {St} self (inner : Request -> M St Response) request clk w :
  preflight request = false ->
  ServerErrorMiddleware (CORSMiddleware_call self (ExceptionMiddleware inner)) request clk w
  = (Returned (finish self request (fst (inner request clk w))),
     snd (inner request clk w)).
Proof.
  unfold preflight, ServerErrorMiddleware, CORSMiddleware_call, finish, with_cors,
    ExceptionMiddleware, bind, ret.
  intros H.
  destruct (origin request);
    [destruct (access_control_request_method request);
     [destruct (str_eqb (method request) (lit "OPTIONS")); [discriminate H|]|]|];
    destruct (inner request clk w) as [r w']; cbn [fst snd];
    destruct (handled r); reflexivity.
Qed.

Lemma respond_with_not_preflight process clk request :
  preflight request = false ->
  respond_with process clk request =
  (finish middleware request
     (fst (Router_call (handle_with process) (routes app) request clk
             {| state := app; reads := 0 |})),
   reads (snd (Router_call (handle_with process) (routes app) request clk
                 {| state := app; reads := 0 |}))).
Proof.
  intros H; unfold respond_with.
  change (FastAPI_call (handle_with process) request clk {| state := app; reads := 0 |})
    with (ServerErrorMiddleware
            (CORSMiddleware_call middleware
               (ExceptionMiddleware (Router_call (handle_with process) (routes app))))
            request clk {| state := app; reads := 0 |}).
  rewrite stack_not_preflight by assumption; reflexivity.
Qed.

Lemma post_not_preflight request :
  method request = lit "POST" -> preflight request = false.
Proof. unfold preflight; now intros ->. Qed.

Lemma get_not_preflight request :
  method request = lit "GET" -> preflight request = false.
Proof. unfold preflight; now intros ->. Qed.

Lemma find_process_route request :
  method request = lit "POST" -> url_path request = lit "/process" ->
  exists r, find_route (routes app) request None = inl r
            /\ endpoint r = process_data_endpoint.
Proof.
  intros Hm Hp; eexists; split.
  - unfold find_route, app; simpl; rewrite Hp, Hm; reflexivity.
  - reflexivity.
Qed.

Lemma find_health_route request :
  method request = lit "GET" -> url_path request = lit "/health" ->
  exists r, find_route (routes app) request None = inl r
            /\ endpoint r = health_check_endpoint.
Proof.
  intros Hm Hp; eexists; split.
  - unfold find_route, app; simpl; rewrite Hp, Hm; reflexivity.
  - reflexivity.
Qed.

Lemma respond_with_routed process clk request r :
  preflight request = false ->
  find_route (routes app) request None = inl r ->
  respond_with process clk request =
  (finish middleware request
     (fst (handle_with process (endpoint r) request clk {| state := app; reads := 0 |})),
   reads (snd (handle_with process (endpoint r) request clk {| state := app; reads := 0 |}))).
Proof.
  intros Hm Hr; rewrite respond_with_not_preflight by assumption.
  unfold Router_call; rewrite Hr; reflexivity.
Qed.

Lemma respond_fst clk request : respond clk request = fst (respond_with process_data clk request).
Proof.
  unfold respond, respond_with, serve, handle.
  destruct (FastAPI_call _ _ _ _) as [[r|e|errs|] w]; reflexivity.
Qed.

Lemma HTTPBearer_call_ok {St} request sch tok clk (w : World St) :
  authorization request = Some (authorization_value sch tok) ->
  lower sch = lit "bearer" -> tok <> [] ->
  HTTPBearer_call request clk w = (Returned {| scheme := sch; credentials := tok |}, w).
Proof.
  intros Ha Hs Ht.
  unfold HTTPBearer_call, get_authorization_scheme_param, authorization_value in *.
  rewrite Ha.
  assert (Hne : nonempty (sch ++ 32%N :: tok) = true) by (destruct sch; reflexivity).
  rewrite Hne, partition_space_app by (apply bearer_no_space; assumption).
  destruct sch as [|c sch]; [discriminate Hs|].
  destruct tok as [|t tok]; [contradiction|].
  cbn [nonempty andb negb]. rewrite Hs. reflexivity.
Qed.

Lemma HTTPBearer_call_cases {St} request clk (w : World St) :
  (exists c, HTTPBearer_call request clk w = (Returned c, w)) \/
  (exists e, HTTPBearer_call request clk w = (Raised e, w) /\ status_code e = 403%N).
Proof.
  unfold HTTPBearer_call.
  destruct (get_authorization_scheme_param (authorization request)) as [sch cred].
  repeat match goal with |- context [if ?b then _ else _] => destruct b end;
    try (left; eexists; reflexivity); right; eexists; split; reflexivity.
Qed.

Lemma verify_token_ok {St} c clk (w : World St) :
  credentials c = lit "demo-secure-token" ->
  verify_token c clk w = (Returned authenticated_context, w).
Proof. intros H; unfold verify_token; rewrite H; reflexivity. Qed.

Lemma verify_token_bad {St} c clk (w : World St) :
  credentials c <> lit "demo-secure-token" ->
  verify_token c clk w = (Raised invalid_token, w).
Proof.
  intros H; unfold verify_token.
  apply str_eqb_neq in H; rewrite H; reflexivity.
Qed.

Lemma auth_ok {St} request sch clk (w : World St) :
  authorization request = Some (authorization_value sch (lit "demo-secure-token")) ->
  lower sch = lit "bearer" ->
  Depends security verify_token request clk w = (Returned authenticated_context, w).
Proof.
  intros Ha Hs; unfold Depends, security.
  erewrite bind_returned by (eapply HTTPBearer_call_ok; eauto; discriminate).
  now apply verify_token_ok.
Qed.

Lemma auth_bad {St} request sch tok clk (w : World St) :
  authorization request = Some (authorization_value sch tok) ->
  lower sch = lit "bearer" -> tok <> [] -> tok <> lit "demo-secure-token" ->
  Depends security verify_token request clk w = (Raised invalid_token, w).
Proof.
  intros Ha Hs Hne Ht; unfold Depends, security.
  erewrite bind_returned by (eapply HTTPBearer_call_ok; eauto).
  now apply verify_token_bad.
Qed.

Lemma auth_cases {St} request clk (w : World St) :
  Depends security verify_token request clk w = (Returned authenticated_context, w) \/
  (exists e, Depends security verify_token request clk w = (Raised e, w)
             /\ (status_code e = 403%N \/ e = invalid_token)).
Proof.
  unfold Depends, security.
  destruct (HTTPBearer_call_cases request clk w) as [[c Hc]|[e [He Hs]]].
  - erewrite bind_returned by eassumption.
    destruct (list_eq_dec N.eq_dec (credentials c) (lit "demo-secure-token")) as [E|E].
    + left; now apply verify_token_ok.
    + right; exists invalid_token; split; [now apply verify_token_bad|now right].
  - right; exists e; split; [|now left].
    erewrite bind_raised by eassumption; reflexivity.
Qed.

(** The three ways through the handler of a route with a body that could be
    read. *)
Lemma handler_dependency_raised {St D A} `{BaseModel D}
    (dependency : Request -> M St A) (endpoint : D -> A -> M St value) request clk w e w' :
  readable (body request) = true ->
  dependency request clk w = (Raised e, w') ->
  request_handler_with_body dependency endpoint request clk w = (Raised e, w').
Proof.
  intros Hb Hd; unfold request_handler_with_body.
  destruct (body request); try discriminate Hb; erewrite bind_raised; eauto.
Qed.

Lemma handler_body_invalid {St D A} `{BaseModel D}
    (dependency : Request -> M St A) (endpoint : D -> A -> M St value)
    request clk w a w' errs :
  readable (body request) = true ->
  dependency request clk w = (Returned a, w') ->
  request_body_to_args (received_body (body request)) = inr errs ->
  request_handler_with_body dependency endpoint request clk w
  = (RequestValidationError errs, w').
Proof.
  intros Hb Hd Hv; unfold request_handler_with_body.
  destruct (body request); try discriminate Hb;
    (erewrite bind_returned by eassumption); rewrite Hv; reflexivity.
Qed.

Lemma handler_body_valid {St D A} `{BaseModel D}
    (dependency : Request -> M St A) (endpoint : D -> A -> M St value)
    request clk w a w' data :
  readable (body request) = true ->
  dependency request clk w = (Returned a, w') ->
  request_body_to_args (received_body (body request)) = inl data ->
  request_handler_with_body dependency endpoint request clk w
  = bind (endpoint data a) (fun raw => constructed (JSONResponse raw 200 [])) clk w'.
Proof.
  intros Hb Hd Hv; unfold request_handler_with_body.
  destruct (body request); try discriminate Hb;
    (erewrite bind_returned by eassumption); rewrite Hv; reflexivity.
Qed.

Lemma process_data_run {St} data auth clk (w : World St) :
  process_data data auth clk w =
  (Returned (processed (clk (reads w)) (clk (S (reads w))) data),
   {| state := state w; reads := S (S (reads w)) |}).
Proof. reflexivity. Qed.

(** The handler of /process once the body is valid: [process_data] runs, and
    what it returns is rendered or is not. *)
Lemma process_handler_valid {St} request clk (w : World St) data :
  readable (body request) = true ->
  Depends security verify_token request clk w = (Returned authenticated_context, w) ->
  request_body_to_args (received_body (body request)) = inl data ->
  request_handler_with_body (Depends security verify_token) process_data request clk w
  = (if encodable (firstName data) && encodable (lastName data)
        && encodable (textData data)
     then Returned (json_response (processed (clk (reads w)) (clk (S (reads w))) data)
                      200 [])
     else Unhandled,
     {| state := state w; reads := S (S (reads w)) |}).
Proof.
  intros Hb Ha Hv.
  rewrite (handler_body_valid (Depends security verify_token) process_data
             request clk w authenticated_context w data Hb Ha Hv).
  unfold bind; rewrite process_data_run.
  unfold JSONResponse; rewrite renderable_processed.
  destruct (encodable (firstName data) && encodable (lastName data)
            && encodable (textData data)); reflexivity.
Qed.

Lemma respond_process_with process clk request :
  method request = lit "POST" -> url_path request = lit "/process" ->
  respond_with process clk request =
  (finish middleware request
     (fst (request_handler_with_body (Depends security verify_token) process
             request clk {| state := app; reads := 0 |})),
   reads (snd (request_handler_with_body (Depends security verify_token) process
                 request clk {| state := app; reads := 0 |}))).
Proof.
  intros Hm Hp.
  destruct (find_process_route request Hm Hp) as [r [Hr He]].
  rewrite (respond_with_routed process clk request r (post_not_preflight request Hm) Hr).
  rewrite He; reflexivity.
Qed.

Lemma str_field_cases (f : string) (d : list (str * value)) :
  (exists s, str_field f d = inl s /\ get (lit f) d = Some (VStr s) /\ is_text d f = true) \/
  (exists e, str_field f d = inr e /\ loc e = [VStr (lit f)] /\ is_text d f = false).
Proof.
  unfold str_field, is_text.
  destruct (get (lit f) d) as [[| | | | |s| |]|];
    try (right; eexists; repeat split; reflexivity).
  left; exists s; repeat split.
Qed.

Lemma validate_user_data d fn ln td :
  get (lit "firstName") d = Some (VStr fn) ->
  get (lit "lastName") d = Some (VStr ln) ->
  get (lit "textData") d = Some (VStr td) ->
  request_body_to_args (FromJson (VDict d))
  = inl {| firstName := fn; lastName := ln; textData := td |}.
Proof.
  intros Hf Hl Ht; unfold request_body_to_args; simpl.
  unfold UserData_validate, str_field; rewrite Hf, Hl, Ht; reflexivity.
Qed.

(** With the right token and the three fields given as text, [process_data]
    runs; the answer is what it returned when that renders, and the 500
    answer when it does not. *)
Lemma respond_valid clk request sch d fn ln td :
  method request = lit "POST" -> url_path request = lit "/process" ->
  authorization request = Some (authorization_value sch (lit "demo-secure-token")) ->
  lower sch = lit "bearer" ->
  body request = Decoded (VDict d) ->
  get (lit "firstName") d = Some (VStr fn) ->
  get (lit "lastName") d = Some (VStr ln) ->
  get (lit "textData") d = Some (VStr td) ->
  respond_with process_data clk request =
  (if encodable fn && encodable ln && encodable td
   then with_cors middleware request
          (json_response
             (processed (clk 0) (clk 1) {| firstName := fn; lastName := ln; textData := td |})
             200 [])
   else internal_server_error, 2).
Proof.
  intros Hm Hp Ha Hs Hb Hf Hl Ht.
  rewrite respond_process_with by assumption.
  rewrite (process_handler_valid request clk {| state := app; reads := 0 |}
             {| firstName := fn; lastName := ln; textData := td |});
    [ | rewrite Hb; reflexivity
      | eapply auth_ok; eassumption
      | rewrite Hb; apply validate_user_data; eassumption ].
  cbn [fst snd reads firstName lastName textData].
  destruct (encodable fn && encodable ln && encodable td); reflexivity.
Qed.

Lemma respond_wrong_token clk request sch tok :
  method request = lit "POST" -> url_path request = lit "/process" ->
  readable (body request) = true ->
  authorization request = Some (authorization_value sch tok) ->
  lower sch = lit "bearer" -> tok <> [] -> tok <> lit "demo-secure-token" ->
  respond clk request
  = with_cors middleware request
      (json_response (VDict [(lit "detail", VStr (lit "Invalid token"))]) 401 []).
Proof.
  intros Hm Hp Hb Ha Hs Hne Ht.
  rewrite respond_fst, respond_process_with by assumption.
  rewrite (handler_dependency_raised (Depends security verify_token) process_data
             request clk {| state := app; reads := 0 |} invalid_token
             {| state := app; reads := 0 |} Hb
             (auth_bad request sch tok clk _ Ha Hs Hne Ht)).
  reflexivity.
Qed.

(** A header without bearer credentials is refused by [HTTPBearer], with one
    of its two details. *)
Lemma bearer_refuses {St} request clk (w : World St) :
  no_bearer_credentials (authorization request) = true ->
  exists e,
    HTTPBearer_call request clk w = (Raised e, w)
    /\ exc_headers e = []
    /\ (detail e = lit "Not authenticated"
        \/ detail e = lit "Invalid authentication credentials").
Proof.
  unfold no_bearer_credentials, HTTPBearer_call, get_authorization_scheme_param.
  destruct (authorization request) as [v|];
    [|intros _; eexists; split; [reflexivity|split; [reflexivity|left; reflexivity]]].
  destruct (nonempty v);
    [|intros _; eexists; split; [reflexivity|split; [reflexivity|left; reflexivity]]].
  destruct (partition_space v) as [s t]; cbn [fst snd].
  destruct (nonempty s), (nonempty t), (str_eqb (lower s) (lit "bearer"));
    cbn [negb andb orb]; intros H; try discriminate H;
    eexists; (split; [reflexivity|split; [reflexivity|]]);
    first [left; reflexivity|right; reflexivity].
Qed.

(** ** The claims *)

(** C1, as stated, fails: a POST to /process with no Authorization header at
    all presents no credential, and the answer is that of [HTTPBearer]
    itself, with detail "Not authenticated"; it is not status 401 with detail
    "Invalid token". *)
Lemma absent_header_is_not_invalid_token :
  let request := Examples.post_process None None (Decoded (VDict Examples.ada)) in
  authorization request = None
  /\ rendered (respond Examples.noon request)
     = JSON (VDict [(lit "detail", VStr (lit "Not authenticated"))])
  /\ ~ (status (respond Examples.noon request) = 401%N
        /\ rendered (respond Examples.noon request)
           = JSON (VDict [(lit "detail", VStr (lit "Invalid token"))])).
Proof.
  cbv zeta; split; [reflexivity|split; [reflexivity|]].
  intros [H _]; vm_compute in H; discriminate.
Qed.

(** C1, amended: take a POST to /process whose body could be read.  If its
    Authorization header is a bearer scheme (in any letter case), a space and
    a non-empty credential without white space around it that is not
    "demo-secure-token", the answer has status 401 and body
    [{"detail": "Invalid token"}].  If its Authorization header is absent, or
    has nothing after its first space, or has something else than "bearer"
    before it, the token is never compared: the answer is that of
    [HTTPBearer], with detail "Not authenticated" or "Invalid authentication
    credentials". *)
Theorem wrong_token_unauthorized (clk : Clock) (request : Request) :
  method request = lit "POST" -> url_path request = lit "/process" ->
  readable (body request) = true ->
  (forall sch tok,
      authorization request = Some (authorization_value sch tok) ->
      lower sch = lit "bearer" -> tok <> [] -> strip tok = tok ->
      tok <> lit "demo-secure-token" ->
      status (respond clk request) = 401%N
      /\ rendered (respond clk request)
         = JSON (VDict [(lit "detail", VStr (lit "Invalid token"))]))
  /\ (no_bearer_credentials (authorization request) = true ->
      exists d,
        rendered (respond clk request) = JSON (VDict [(lit "detail", VStr d)])
        /\ (d = lit "Not authenticated"
            \/ d = lit "Invalid authentication credentials")).
Proof.
  intros Hm Hp Hb; split.
  - intros sch tok Ha Hs Hne _ Ht.
    rewrite (respond_wrong_token clk request sch tok) by assumption.
    rewrite with_cors_status, with_cors_rendered; split; reflexivity.
  - intros Hno.
    destruct (bearer_refuses request clk {| state := app; reads := 0 |} Hno)
      as [e [He [Hh Hd]]].
    exists (detail e); split; [|assumption].
    rewrite respond_fst, respond_process_with by assumption.
    rewrite (handler_dependency_raised (Depends security verify_token) process_data
               request clk {| state := app; reads := 0 |} e
               {| state := app; reads := 0 |} Hb).
    + cbn [fst]; rewrite finish_raised, with_cors_rendered; [reflexivity|].
      destruct Hd as [Hd|Hd]; rewrite Hd; reflexivity.
    + unfold Depends, security; erewrite bind_raised by eassumption; reflexivity.
Qed.

(** A wrong token sent as "Bearer not-the-token". *)
Lemma wrong_token_unauthorized_witness :
  let request :=
    Examples.post_process (Some "Bearer not-the-token"%string) None (Decoded (VDict Examples.ada)) in
  status (respond Examples.noon request) = 401%N
  /\ rendered (respond Examples.noon request)
     = JSON (VDict [(lit "detail", VStr (lit "Invalid token"))]).
Proof.
  cbv zeta.
  apply (proj1 (wrong_token_unauthorized Examples.noon
                  (Examples.post_process (Some "Bearer not-the-token"%string) None
                     (Decoded (VDict Examples.ada)))
                  eq_refl eq_refl eq_refl)
           (lit "Bearer") (lit "not-the-token"));
    try reflexivity; discriminate.
Defined.

(** C2, as stated, fails: three strings that validation accepts need not be
    text that the answer can be written in.  With the right token and a
    firstName that is one unpaired surrogate, [process_data] runs, what it
    returns cannot be rendered, and the answer is the 500 answer, which has no
    message. *)
Lemma unpaired_surrogate_name_has_no_message :
  let request :=
    Examples.post_process (Some "Bearer demo-secure-token"%string) None
      (Decoded (VDict (Examples.user_data Examples.lone_surrogate (lit "Lovelace")
                         (lit "hello")))) in
  failing (Examples.user_data Examples.lone_surrogate (lit "Lovelace") (lit "hello")) = []
  /\ status (respond Examples.noon request) = 500%N
  /\ field ["message"%string] (respond Examples.noon request) = None.
Proof. cbv zeta; split; [|split]; reflexivity. Qed.

(** C2, amended: for a POST to /process with the right token whose body gives
    firstName, lastName and textData as text without unpaired surrogates, the
    answer has status 200 and its message is "Hello " + firstName + " " +
    lastName + ". Received: " + textData. *)
Theorem message_is_concatenation (clk : Clock) (request : Request) (sch : str)
    (d : list (str * value)) (fn ln td : str) :
  method request = lit "POST" -> url_path request = lit "/process" ->
  authorization request = Some (authorization_value sch (lit "demo-secure-token")) ->
  lower sch = lit "bearer" ->
  body request = Decoded (VDict d) ->
  get (lit "firstName") d = Some (VStr fn) ->
  get (lit "lastName") d = Some (VStr ln) ->
  get (lit "textData") d = Some (VStr td) ->
  encodable fn = true -> encodable ln = true -> encodable td = true ->
  status (respond clk request) = 200%N
  /\ field ["message"%string] (respond clk request)
     = Some (VStr (lit "Hello " ++ fn ++ lit " " ++ ln ++ lit ". Received: " ++ td)).
Proof.
  intros Hm Hp Ha Hs Hb Hf Hl Ht Ef El Et.
  rewrite respond_fst, (respond_valid clk request sch d fn ln td) by assumption.
  rewrite Ef, El, Et; cbn [andb fst].
  rewrite with_cors_status, with_cors_field; split; reflexivity.
Qed.

(** The example of Ada Lovelace. *)
Lemma message_is_concatenation_witness :
  field ["message"%string]
    (respond Examples.noon
       (Examples.post_process (Some "Bearer demo-secure-token"%string) None
          (Decoded (VDict Examples.ada))))
  = Some (VStr (lit "Hello Ada Lovelace. Received: hello")).
Proof.
  apply (message_is_concatenation Examples.noon
           (Examples.post_process (Some "Bearer demo-secure-token"%string) None
              (Decoded (VDict Examples.ada)))
           (lit "Bearer") Examples.ada (lit "Ada") (lit "Lovelace") (lit "hello"));
    reflexivity.
Defined.

(** The lengths of "hello" and of the empty string. *)
Lemma data_length_examples :
  field ["processing_details"; "data_length"]%string
    (respond Examples.noon
       (Examples.post_process (Some "Bearer demo-secure-token"%string) None
          (Decoded (VDict Examples.ada))))
  = Some (VInt 5)
  /\ field ["processing_details"; "data_length"]%string
       (respond Examples.noon
          (Examples.post_process (Some "Bearer demo-secure-token"%string) None
             (Decoded (VDict (Examples.user_data (lit "Ada") (lit "Lovelace") [])))))
     = Some (VInt 0).
Proof. split; reflexivity. Qed.

(** C3, as stated, fails: a textData that is one unpaired surrogate has one
    character, but the answer is the 500 answer and has no data_length. *)
Lemma unpaired_surrogate_text_has_no_data_length :
  let request :=
    Examples.post_process (Some "Bearer demo-secure-token"%string) None
      (Decoded (VDict (Examples.user_data (lit "Ada") (lit "Lovelace")
                         Examples.lone_surrogate))) in
  len Examples.lone_surrogate = 1%Z
  /\ status (respond Examples.noon request) = 500%N
  /\ field ["processing_details"; "data_length"]%string (respond Examples.noon request)
     = None.
Proof. cbv zeta; split; [|split]; reflexivity. Qed.

(** C3, amended: under the conditions of C2 (the three strings without
    unpaired surrogates), data_length in processing_details is the number of
    characters (code points) of textData, whatever the string: empty, ASCII
    or not. *)
Theorem data_length_counts_characters (clk : Clock) (request : Request) (sch : str)
    (d : list (str * value)) (fn ln td : str) :
  method request = lit "POST" -> url_path request = lit "/process" ->
  authorization request = Some (authorization_value sch (lit "demo-secure-token")) ->
  lower sch = lit "bearer" ->
  body request = Decoded (VDict d) ->
  get (lit "firstName") d = Some (VStr fn) ->
  get (lit "lastName") d = Some (VStr ln) ->
  get (lit "textData") d = Some (VStr td) ->
  encodable fn = true -> encodable ln = true -> encodable td = true ->
  field ["processing_details"; "data_length"]%string (respond clk request)
  = Some (VInt (Z.of_nat (List.length td))).
Proof.
  intros Hm Hp Ha Hs Hb Hf Hl Ht Ef El Et.
  rewrite respond_fst, (respond_valid clk request sch d fn ln td) by assumption.
  rewrite Ef, El, Et; cbn [andb fst].
  rewrite with_cors_field; reflexivity.
Qed.

(** A text of five characters that takes six bytes. *)
Lemma data_length_counts_characters_witness :
  field ["processing_details"; "data_length"]%string
    (respond Examples.noon
       (Examples.post_process (Some "Bearer demo-secure-token"%string) None
          (Decoded (VDict (Examples.user_data (lit "Ada") (lit "Lovelace")
                             Examples.hello_accent)))))
  = Some (VInt 5)
  /\ utf8_len Examples.hello_accent = 6%Z.
Proof.
  split; [|reflexivity].
  apply (data_length_counts_characters Examples.noon
           (Examples.post_process (Some "Bearer demo-secure-token"%string) None
              (Decoded (VDict (Examples.user_data (lit "Ada") (lit "Lovelace")
                                 Examples.hello_accent))))
           (lit "Bearer")
           (Examples.user_data (lit "Ada") (lit "Lovelace") Examples.hello_accent)
           (lit "Ada") (lit "Lovelace") Examples.hello_accent);
    reflexivity.
Defined.








(** With the right token, a body that is absent, is not a JSON object or is
    not JSON is answered 422 as well, with an error located at the body as a
    whole (and, for bytes that are not JSON, at the position of the
    defect). *)
Lemma body_that_is_no_object :
  status (respond Examples.noon
            (Examples.post_process (Some "Bearer demo-secure-token"%string) None Empty))
  = 422%N
  /\ status (respond Examples.noon
               (Examples.post_process (Some "Bearer demo-secure-token"%string) None
                  (Decoded (VList []))))
     = 422%N
  /\ status (respond Examples.noon
               (Examples.post_process (Some "Bearer demo-secure-token"%string) None
                  (Undecodable 0 "Expecting value")))
     = 422%N
  /\ status (respond Examples.noon
               (Examples.post_process (Some "Bearer demo-secure-token"%string) None
                  (Undecoded (Some (lit "firstName=Ada")))))
     = 422%N.
Proof. repeat split. Qed.



Lemma respond_health clk request :
  method request = lit "GET" -> url_path request = lit "/health" ->
  respond clk request =
  with_cors middleware request
    (json_response
       (VDict [(lit "status", VStr (lit "healthy"));
               (lit "timestamp", VStr (isoformat (clk 0)));
               (lit "service", VStr (lit "secure-backend-aks"))])
       200 []).
Proof.
  intros Hm Hp.
  destruct (find_health_route request Hm Hp) as [r [Hr He]].
  rewrite respond_fst.
  rewrite (respond_with_routed process_data clk request r (get_not_preflight request Hm) Hr).
  rewrite He; cbn [fst handle_with].
  unfold request_handler, health_check, bind, datetime_now, ret, constructed, JSONResponse.
  cbn [reads renderable forallb fst snd].
  rewrite encodable_isoformat; reflexivity.
Qed.

(** C5: whatever else a GET of /health carries (an Authorization header or
    none, an origin or none), the answer has status 200, status "healthy",
    service "secure-backend-aks" and a timestamp that reads back, as an
    ISO-8601 date and time, to the clock value it was made from; the handler
    always returns, and the application object is left as it was. *)
Theorem health_is_healthy (clk : Clock) (request : Request) :
  method request = lit "GET" -> url_path request = lit "/health" ->
  valid (clk 0) = true ->
  status (respond clk request) = 200%N
  /\ field ["status"%string] (respond clk request) = Some (VStr (lit "healthy"))
  /\ field ["service"%string] (respond clk request) = Some (VStr (lit "secure-backend-aks"))
  /\ (exists ts, field ["timestamp"%string] (respond clk request) = Some (VStr ts)
                 /\ parse_iso8601 ts = Some (clk 0)
                 /\ is_iso8601 ts = true)
  /\ (forall w : World (FastAPI Endpoint), exists v,
        health_check clk w = (Returned v, {| state := state w; reads := S (reads w) |}))
  /\ snd (serve handle app (clk, request)) = app.
Proof.
  intros Hm Hp Hv.
  rewrite (respond_health clk request Hm Hp).
  rewrite with_cors_status, !with_cors_field.
  repeat split.
  - exists (isoformat (clk 0)); split; [reflexivity|].
    unfold is_iso8601; rewrite (parse_isoformat (clk 0) Hv); split; reflexivity.
  - intros w; eexists; reflexivity.
  - apply serve_state; intros e r; apply preserves_handle_with.
    intros d a; apply preserves_process_data.
Qed.

(** The health check at noon. *)
Lemma health_is_healthy_witness :
  status (respond Examples.noon (Examples.get_health None)) = 200%N
  /\ field ["status"%string] (respond Examples.noon (Examples.get_health None))
     = Some (VStr (lit "healthy"))
  /\ field ["timestamp"%string] (respond Examples.noon (Examples.get_health None))
     = Some (VStr (lit "2024-02-29T12:00:00")).
Proof.
  destruct (health_is_healthy Examples.noon (Examples.get_health None)
              eq_refl eq_refl eq_refl) as [H1 [H2 _]].
  split; [exact H1 | split; [exact H2 | reflexivity]].
Defined.

(** C6: when the credential that HTTPBearer extracts is exactly
    "demo-secure-token", the auth check returns the context
    [{"authenticated": True, "user": "demo-user"}]; and whenever the auth
    check returns at all, it returns that context. *)
Theorem auth_context_is_fixed (request : Request) (clk : Clock)
    (w : World (FastAPI Endpoint)) :
  (forall c, security request clk w = (Returned c, w) ->
             credentials c = lit "demo-secure-token" ->
             Depends security verify_token request clk w
             = (Returned authenticated_context, w))
  /\ (forall v w', Depends security verify_token request clk w = (Returned v, w') ->
                   v = authenticated_context).
Proof.
  split.
  - intros c Hc Ht; unfold Depends.
    rewrite (bind_returned _ _ _ _ _ _ Hc).
    now apply verify_token_ok.
  - intros v w' H.
    destruct (auth_cases request clk w) as [E|[e [E _]]]; rewrite E in H.
    + now inversion H.
    + discriminate.
Qed.

(** The auth check on "Bearer demo-secure-token". *)
Lemma auth_context_is_fixed_witness :
  Depends security verify_token
    (Examples.post_process (Some "Bearer demo-secure-token"%string) None Empty)
    Examples.noon {| state := app; reads := 0 |}
  = (Returned
       (VDict [(lit "authenticated", VBool true); (lit "user", VStr (lit "demo-user"))]),
     {| state := app; reads := 0 |}).
Proof.
  apply (proj1 (auth_context_is_fixed
                  (Examples.post_process (Some "Bearer demo-secure-token"%string) None Empty)
                  Examples.noon {| state := app; reads := 0 |})
           {| scheme := lit "Bearer"; credentials := lit "demo-secure-token" |});
    reflexivity.
Defined.

(** The monad does allow a computation to replace the state, so that
    [preserves] says something about the computations it holds of. *)
Lemma put_state_does_not_preserve : ~ preserves (put_state (St := bool) true).
Proof.
  intros H.
  specialize (H (fun _ => mk_datetime 1 1 1 0 0 0 0) {| state := false; reads := 0 |}).
  discriminate H.
Qed.

(** C8: no handler changes the application object, so serving any sequence
    of requests leaves it as it was, and the answer to each request of the
    sequence is the answer it would get if it were served alone. *)
Theorem requests_are_independent (s : FastAPI Endpoint)
    (arrivals : list (Clock * Request)) :
  (forall e request, preserves (handle e request))
  /\ snd (serve_all handle s arrivals) = s
  /\ fst (serve_all handle s arrivals) = map (fun a => fst (serve handle s a)) arrivals.
Proof.
  assert (H : forall e request, preserves (handle e request)).
  { intros e r; apply preserves_handle_with.
    intros d a; apply preserves_process_data. }
  split; [exact H|].
  rewrite (serve_all_spec handle s arrivals H); split; reflexivity.
Qed.


(** ** Facts about response headers *)

Lemma raw_get_app_absent k k' v h :
  raw_get k h = None ->
  raw_get k (h ++ [(k', v)]) = if str_eqb k k' then Some v else None.
Proof.
  induction h as [|[k0 v0] h IH]; simpl; [reflexivity|].
  destruct (str_eqb k k0); [discriminate|exact IH].
Qed.

Lemma raw_get_app_present k kv h x :
  raw_get k h = Some x -> raw_get k (h ++ kv) = Some x.
Proof.
  induction h as [|[k0 v0] h IH]; simpl; [discriminate|].
  destruct (str_eqb k k0); [trivial|exact IH].
Qed.

Lemma raw_get_replace_same k v h :
  raw_get k h <> None -> raw_get k (raw_replace k v false h) = Some v.
Proof.
  induction h as [|[k0 v0] h IH]; simpl; [congruence|].
  destruct (str_eqb k k0) eqn:E; simpl.
  - now rewrite str_eqb_refl.
  - rewrite E; exact IH.
Qed.

Lemma raw_get_replace_other k k' v seen h :
  str_eqb k k' = false -> raw_get k (raw_replace k' v seen h) = raw_get k h.
Proof.
  intros Hk; revert seen; induction h as [|[k0 v0] h IH]; intros seen; simpl; [reflexivity|].
  destruct (str_eqb k' k0) eqn:E.
  - apply str_eqb_eq in E; subst k0; rewrite Hk.
    destruct seen; simpl; [apply IH|rewrite Hk; apply IH].
  - simpl; destruct (str_eqb k k0); [reflexivity|apply IH].
Qed.

Lemma raw_get_set_same k v h : raw_get k (raw_set k v h) = Some v.
Proof.
  unfold raw_set; destruct (raw_get k h) eqn:E.
  - apply raw_get_replace_same; congruence.
  - rewrite (raw_get_app_absent k k v h E), str_eqb_refl; reflexivity.
Qed.

Lemma raw_get_set_other k k' v h :
  str_eqb k k' = false -> raw_get k (raw_set k' v h) = raw_get k h.
Proof.
  intros Hk; unfold raw_set; destruct (raw_get k' h) eqn:E.
  - now apply raw_get_replace_other.
  - destruct (raw_get k h) eqn:E'.
    + now apply raw_get_app_present.
    + rewrite (raw_get_app_absent k k' v h E'), Hk; reflexivity.
Qed.

(** What [cors_send] of the configured middleware leaves in the headers for
    an origin that [is_allowed_origin] accepts. *)
Lemma cors_send_allowed o has_cookie r :
  is_allowed_origin middleware o = true ->
  header "Access-Control-Allow-Origin" (headers (cors_send middleware o has_cookie r)) = Some o
  /\ header "Access-Control-Allow-Credentials" (headers (cors_send middleware o has_cookie r))
     = Some (lit "true").
Proof.
  intros Ho; unfold cors_send; rewrite Ho.
  change (allow_all_origins middleware) with false.
  change (simple_headers middleware)
    with [(lower (lit "Access-Control-Allow-Credentials"), lit "true")].
  cbn [andb negb headers update_headers fold_left fst snd].
  unfold allow_explicit_origin, add_vary_header, set_header, header.
  split.
  - destruct (raw_get (lower (lit "vary")) _);
      rewrite raw_get_set_other by reflexivity; apply raw_get_set_same.
  - destruct (raw_get (lower (lit "vary")) _);
      rewrite !raw_get_set_other by reflexivity; apply raw_get_set_same.
Qed.

(** The two strings of [allow_origins] are compared as they are written:
    the entry with the star admits the origin that is spelled with the star
    and no other. *)
Lemma allowed_origins_are_literal (o : str) :
  is_allowed_origin middleware o = true <->
  o = lit Examples.frontend \/ o = lit "https://*.azurewebsites.net".
Proof.
  unfold is_allowed_origin.
  change (allow_all_origins middleware) with false.
  change (allow_origins middleware)
    with [lit Examples.frontend; lit "https://*.azurewebsites.net"].
  unfold mem; cbn [existsb].
  rewrite orb_false_r, orb_true_iff, !str_eqb_eq; reflexivity.
Qed.

Lemma subdomain_origin_is_not_reflected :
  header "Access-Control-Allow-Origin"
    (headers (respond Examples.noon
                (Examples.get_health (Some "https://foo.azurewebsites.net"%string))))
  = None.
Proof. reflexivity. Qed.

(** C7, as stated, fails: the answer to a GET of /health from the exact
    origin of the allow-list reflects the origin and allows credentials, but
    it names no allowed methods and no allowed headers; those two headers
    are sent in answers to preflight requests only. *)
Lemma simple_response_names_no_methods :
  let r := respond Examples.noon (Examples.get_health (Some Examples.frontend)) in
  header "Access-Control-Allow-Origin" (headers r) = Some (lit Examples.frontend)
  /\ header "Access-Control-Allow-Methods" (headers r) = None
  /\ header "Access-Control-Allow-Headers" (headers r) = None.
Proof. cbv zeta; split; [|split]; reflexivity. Qed.

(** C7, amended: every answer to a request from the origin
    "https://frontend-webapp-container.azurewebsites.net", other than the 500
    answer that the server error middleware sends past the CORS middleware,
    carries Access-Control-Allow-Origin with that origin and
    Access-Control-Allow-Credentials: true; the answer to a preflight request
    from it (OPTIONS with Access-Control-Request-Method) carries besides
    Access-Control-Allow-Methods: GET, POST, OPTIONS, and
    Access-Control-Allow-Headers repeating the headers that were asked for. *)
Theorem allowed_origin_is_reflected (clk : Clock) (request : Request) :
  origin request = Some (lit Examples.frontend) ->
  status (respond clk request) <> 500%N ->
  header "Access-Control-Allow-Origin" (headers (respond clk request))
  = Some (lit Examples.frontend)
  /\ header "Access-Control-Allow-Credentials" (headers (respond clk request))
     = Some (lit "true")
  /\ (forall m, method request = lit "OPTIONS" ->
                access_control_request_method request = Some m ->
        header "Access-Control-Allow-Methods" (headers (respond clk request))
        = Some (lit "GET, POST, OPTIONS")
        /\ header "Access-Control-Allow-Headers" (headers (respond clk request))
           = access_control_request_headers request).
Proof.
  intros Ho.
  assert (Hal : is_allowed_origin middleware (lit Examples.frontend) = true)
    by (apply allowed_origins_are_literal; now left).
  unfold respond, serve.
  change (FastAPI_call handle request clk {| state := app; reads := 0 |})
    with (ServerErrorMiddleware
            (CORSMiddleware_call middleware
               (ExceptionMiddleware (Router_call handle (routes app))))
            request clk {| state := app; reads := 0 |}).
  unfold ServerErrorMiddleware, CORSMiddleware_call; rewrite Ho.
  destruct (access_control_request_method request) as [m|] eqn:Em;
    [destruct (str_eqb (method request) (lit "OPTIONS")) eqn:Eo|].
  - (* a preflight request *)
    unfold ret; cbn [fst]; intros _.
    unfold preflight_response; rewrite Hal.
    destruct (access_control_request_headers request) as [rh|];
      destruct (mem m (allow_methods middleware));
      (split; [reflexivity|split; [reflexivity|]]);
      intros m' _ _; split; reflexivity.
  - unfold bind, ExceptionMiddleware, ret.
    destruct (Router_call handle (routes app) request clk _) as [res w'].
    destruct (handled res) as [r|e|errs|]; cbn [fst];
      try (intros H; exfalso; apply H; reflexivity).
    intros _.
    destruct (cors_send_allowed (lit Examples.frontend) (is_some (cookie request))
                r Hal) as [H1 H2].
    split; [exact H1|split; [exact H2|]].
    intros m' Hm _; rewrite Hm in Eo; discriminate.
  - unfold bind, ExceptionMiddleware, ret.
    destruct (Router_call handle (routes app) request clk _) as [res w'].
    destruct (handled res) as [r|e|errs|]; cbn [fst];
      try (intros H; exfalso; apply H; reflexivity).
    intros _.
    destruct (cors_send_allowed (lit Examples.frontend) (is_some (cookie request))
                r Hal) as [H1 H2].
    split; [exact H1|split; [exact H2|]].
    intros m' _ Hm'; discriminate.
Qed.

(** A POST to /process from the front end. *)
Lemma allowed_origin_is_reflected_witness :
  header "Access-Control-Allow-Origin"
    (headers (respond Examples.noon
                (Examples.post_process (Some "Bearer demo-secure-token"%string)
                   (Some Examples.frontend) (Decoded (VDict Examples.ada)))))
  = Some (lit Examples.frontend).
Proof.
  refine (proj1 (allowed_origin_is_reflected Examples.noon
                   (Examples.post_process (Some "Bearer demo-secure-token"%string)
                      (Some Examples.frontend) (Decoded (VDict Examples.ada)))
                   eq_refl _)).
  vm_compute; discriminate.
Defined.

(** The 500 answer carries no header of the CORS middleware, whatever the
    origin. *)
Lemma server_error_has_no_cors_header :
  let r := respond Examples.noon
             (Examples.post_process (Some "Bearer demo-secure-token"%string)
                (Some Examples.frontend)
                (Decoded (VDict (Examples.user_data (lit "Ada") (lit "Lovelace")
                                   Examples.lone_surrogate)))) in
  status r = 500%N
  /\ header "Access-Control-Allow-Origin" (headers r) = None
  /\ header "Access-Control-Allow-Credentials" (headers r) = None.
Proof. cbv zeta; split; [|split]; reflexivity. Qed.

(** ** The ways a POST to /process can end *)

Lemma partition_space_inv (v s t : str) :
  partition_space v = (s, t) -> t <> [] -> v = s ++ 32%N :: t.
Proof.
  revert s t; induction v as [|c v IH]; intros s t; simpl.
  - intros H; inversion H; congruence.
  - destruct (N.eqb_spec c 32) as [->|_].
    + intros H _; inversion H; reflexivity.
    + destruct (partition_space v) as [h t'].
      intros H Ht; inversion H; subst; simpl; f_equal; apply IH; auto.
Qed.

Lemma HTTPBearer_call_returns {St} request clk (w : World St) c w' :
  HTTPBearer_call request clk w = (Returned c, w') ->
  w' = w
  /\ authorization request = Some (authorization_value (scheme c) (credentials c))
  /\ lower (scheme c) = lit "bearer".
Proof.
  unfold HTTPBearer_call, get_authorization_scheme_param.
  destruct (authorization request) as [v|]; [|intros H; discriminate H].
  destruct (nonempty v); [|intros H; discriminate H].
  destruct (partition_space v) as [s t] eqn:P.
  destruct s as [|s0 s]; [intros H; discriminate H|].
  destruct t as [|t0 t]; [intros H; discriminate H|].
  cbn [nonempty andb negb].
  destruct (str_eqb (lower (s0 :: s)) (lit "bearer")) eqn:E; cbn [negb];
    [|intros H; discriminate H].
  intros H; inversion H; subst; cbn [scheme credentials].
  apply str_eqb_eq in E.
  repeat split; [|assumption].
  f_equal; apply partition_space_inv; [assumption|discriminate].
Qed.

Lemma HTTPBearer_call_raises {St} request clk (w : World St) e w' :
  HTTPBearer_call request clk w = (Raised e, w') ->
  w' = w /\ status_code e = 403%N /\ exc_headers e = []
  /\ (detail e = lit "Not authenticated"
      \/ detail e = lit "Invalid authentication credentials").
Proof.
  unfold HTTPBearer_call.
  destruct (get_authorization_scheme_param (authorization request)) as [sch cred].
  repeat match goal with |- context [if ?b then _ else _] => destruct b end;
    intros H; inversion H; subst; repeat split;
    first [left; reflexivity|right; reflexivity].
Qed.

Lemma auth_returns {St} request clk (w : World St) v w' :
  Depends security verify_token request clk w = (Returned v, w') ->
  exists sch,
    authorization request = Some (authorization_value sch (lit "demo-secure-token"))
    /\ lower sch = lit "bearer".
Proof.
  unfold Depends, security, bind.
  destruct (HTTPBearer_call request clk w) as [[c|e|errs|] w1] eqn:E;
    try (intros H; discriminate H).
  apply HTTPBearer_call_returns in E; destruct E as [_ [Ha Hl]].
  unfold verify_token.
  destruct (str_eqb (credentials c) (lit "demo-secure-token")) eqn:T;
    [|intros H; discriminate H].
  apply str_eqb_eq in T; intros _.
  exists (scheme c); rewrite <- T; auto.
Qed.

Lemma auth_raises {St} request clk (w : World St) e w' :
  Depends security verify_token request clk w = (Raised e, w') ->
  w' = w /\ exc_headers e = []
  /\ (status_code e = 401%N \/ status_code e = 403%N)
  /\ renderable (VDict [(lit "detail", VStr (detail e))]) = true.
Proof.
  unfold Depends, security, bind.
  destruct (HTTPBearer_call request clk w) as [[c|e0|errs|] w1] eqn:E.
  - pose proof (HTTPBearer_call_returns request clk w c w1 E) as [-> _].
    unfold verify_token; destruct (str_eqb _ _); intros H; inversion H; subst.
    repeat split; left; reflexivity.
  - apply HTTPBearer_call_raises in E; destruct E as [-> [Hs [Hh Hd]]].
    intros H; inversion H; subst; repeat split; try assumption; [now right|].
    destruct Hd as [Hd|Hd]; rewrite Hd; reflexivity.
  - intros H; discriminate H.
  - intros H; discriminate H.
Qed.

(** What [finish] makes of a validation error: the 422 answer when the
    errors can be shown, the 500 answer when they cannot. *)
Lemma finish_validation self request errs :
  (exists js, finish self request (RequestValidationError errs)
              = with_cors self request
                  (json_response (VDict [(lit "detail", VList js)]) 422 []))
  \/ finish self request (RequestValidationError errs) = internal_server_error.
Proof.
  unfold finish, handled, request_validation_exception_handler, JSONResponse.
  destruct (all_some (map jsonable_error errs)) as [js|]; [|right; reflexivity].
  destruct (renderable _); [left; exists js|right]; reflexivity.
Qed.

Lemma json_invalid_shown (pos : Z) (error : string) :
  request_validation_exception_handler [json_invalid pos error]
  = Some (json_response
            (VDict [(lit "detail",
                      VList [VDict [(lit "type", VStr (lit "json_invalid"));
                                    (lit "loc", VList [VStr (lit "body"); VInt pos]);
                                    (lit "msg", VStr (lit "JSON decode error"));
                                    (lit "input", VDict []);
                                    (lit "ctx",
                                      VDict [(lit "error", VStr (lit error))])]])])
            422 []).
Proof.
  unfold request_validation_exception_handler, JSONResponse.
  cbn [map json_invalid jsonable_error jsonable input ctx type_ loc msg all_some
       option_map List.app renderable forallb fst snd].
  rewrite !encodable_lit; reflexivity.
Qed.

Lemma readable_cases (b : payload) :
  readable b = true \/ (exists pos error, b = Undecodable pos error) \/ b = Unreadable.
Proof. destruct b; auto; right; left; eauto. Qed.

Lemma process_route_cases clk request :
  method request = lit "POST" -> url_path request = lit "/process" ->
  (exists pos error,
      body request = Undecodable pos error
      /\ respond_with process_data clk request
         = (finish middleware request (RequestValidationError [json_invalid pos error]), 0))
  \/ (body request = Unreadable
      /\ respond_with process_data clk request
         = (with_cors middleware request
              (json_response
                 (VDict [(lit "detail", VStr (lit "There was an error parsing the body"))])
                 400 []), 0))
  \/ (readable (body request) = true
      /\ exists e,
          Depends security verify_token request clk {| state := app; reads := 0 |}
          = (Raised e, {| state := app; reads := 0 |})
          /\ (status_code e = 401%N \/ status_code e = 403%N)
          /\ respond_with process_data clk request
             = (with_cors middleware request
                  (json_response (VDict [(lit "detail", VStr (detail e))])
                     (status_code e) []), 0))
  \/ (readable (body request) = true
      /\ Depends security verify_token request clk {| state := app; reads := 0 |}
         = (Returned authenticated_context, {| state := app; reads := 0 |})
      /\ exists errs,
          request_body_to_args (D := UserData) (received_body (body request)) = inr errs
          /\ respond_with process_data clk request
             = (finish middleware request (RequestValidationError errs), 0))
  \/ (readable (body request) = true
      /\ Depends security verify_token request clk {| state := app; reads := 0 |}
         = (Returned authenticated_context, {| state := app; reads := 0 |})
      /\ exists data,
          request_body_to_args (received_body (body request)) = inl data
          /\ respond_with process_data clk request
             = (if encodable (firstName data) && encodable (lastName data)
                   && encodable (textData data)
                then with_cors middleware request
                       (json_response (processed (clk 0) (clk 1) data) 200 [])
                else internal_server_error, 2)).
Proof.
  intros Hm Hp.
  rewrite respond_process_with by assumption.
  set (w0 := {| state := app; reads := 0 |}).
  destruct (readable_cases (body request)) as [Hb|[[pos [error Hb]]|Hb]].
  - right; right.
    destruct (auth_cases request clk w0) as [E|[e [E _]]].
    + right.
      destruct (request_body_to_args (D := UserData) (received_body (body request)))
        as [data|errs] eqn:Hv.
      * right; split; [assumption|split; [assumption|]].
        exists data; split; [reflexivity|].
        rewrite (process_handler_valid request clk w0 data Hb E Hv).
        cbn [fst snd reads w0].
        destruct (encodable (firstName data) && encodable (lastName data)
                  && encodable (textData data)); reflexivity.
      * left; split; [assumption|split; [assumption|]].
        exists errs; split; [reflexivity|].
        rewrite (handler_body_invalid (Depends security verify_token) process_data
                   request clk w0 authenticated_context w0 errs Hb E Hv).
        reflexivity.
    + left; split; [assumption|].
      destruct (auth_raises request clk w0 e w0 E) as [_ [Hh [Hs Hr]]].
      exists e; split; [assumption|split; [assumption|]].
      rewrite (handler_dependency_raised (Depends security verify_token) process_data
                 request clk w0 e w0 Hb E).
      cbn [fst snd reads w0]; rewrite finish_raised by assumption.
      rewrite Hh; reflexivity.
  - left; exists pos, error; split; [assumption|].
    unfold request_handler_with_body; rewrite Hb; reflexivity.
  - right; left; split; [assumption|].
    unfold request_handler_with_body; rewrite Hb; reflexivity.
Qed.

(** ** What a successful answer of /process has to be *)

Lemma validate_inv (d : list (str * value)) (data : UserData) :
  request_body_to_args (FromJson (VDict d)) = inl data ->
  get (lit "firstName") d = Some (VStr (firstName data))
  /\ get (lit "lastName") d = Some (VStr (lastName data))
  /\ get (lit "textData") d = Some (VStr (textData data)).
Proof.
  unfold request_body_to_args; simpl model_validate; unfold UserData_validate.
  destruct (str_field_cases "firstName" d) as [[f [Ef [Gf _]]]|[ef [Ef _]]];
  destruct (str_field_cases "lastName" d) as [[l [El [Gl _]]]|[el [El _]]];
  destruct (str_field_cases "textData" d) as [[t [Et [Gt _]]]|[et [Et _]]];
    rewrite Ef, El, Et; intros H; try discriminate.
  inversion H; subst data; cbn [firstName lastName textData]; auto.
Qed.

Lemma finish_validation_status self request errs :
  status (finish self request (RequestValidationError errs)) = 422%N
  \/ status (finish self request (RequestValidationError errs)) = 500%N.
Proof.
  destruct (finish_validation self request errs) as [[js E]|E]; rewrite E.
  - left; rewrite with_cors_status; reflexivity.
  - right; reflexivity.
Qed.

Lemma respond_success_inv clk request :
  method request = lit "POST" -> url_path request = lit "/process" ->
  status (respond clk request) = 200%N ->
  exists data,
    request_body_to_args (received_body (body request)) = inl data
    /\ respond clk request =
       with_cors middleware request (json_response (processed (clk 0) (clk 1) data) 200 []).
Proof.
  intros Hm Hp; rewrite respond_fst.
  destruct (process_route_cases clk request Hm Hp)
    as [[pos [error [_ R]]]|[[_ R]|[[_ [e [_ [Hs R]]]]|[[_ [_ [errs [_ R]]]]
        |[_ [_ [data [Hv R]]]]]]]];
    rewrite R; cbn [fst].
  - destruct (finish_validation_status middleware request [json_invalid pos error])
      as [E|E]; rewrite E; intros H; discriminate H.
  - rewrite with_cors_status; intros H; discriminate H.
  - rewrite with_cors_status.
    cbn [json_response make_response status].
    destruct Hs as [Hs|Hs]; rewrite Hs; intros H; discriminate H.
  - destruct (finish_validation_status middleware request errs)
      as [E|E]; rewrite E; intros H; discriminate H.
  - destruct (encodable (firstName data) && encodable (lastName data)
              && encodable (textData data)).
    + intros _; exists data; split; [assumption|reflexivity].
    + intros H; discriminate H.
Qed.

(** C9: whenever a POST to /process is answered with status 200, the
    authentication_analysis of the answer says authenticated: true and
    service: "Private AKS Backend", whatever the input was; and that label is
    not the service label that /health reports. *)
Theorem success_reports_authenticated (clk : Clock) (request : Request) :
  method request = lit "POST" -> url_path request = lit "/process" ->
  status (respond clk request) = 200%N ->
  field ["authentication_analysis"; "authenticated"]%string (respond clk request)
  = Some (VBool true)
  /\ field ["authentication_analysis"; "service"]%string (respond clk request)
     = Some (VStr (lit "Private AKS Backend"))
  /\ (forall clk' request',
        method request' = lit "GET" -> url_path request' = lit "/health" ->
        field ["service"%string] (respond clk' request')
        <> field ["authentication_analysis"; "service"]%string (respond clk request)).
Proof.
  intros Hm Hp Hs.
  destruct (respond_success_inv clk request Hm Hp Hs) as [data [_ E]].
  rewrite E, !with_cors_field.
  split; [reflexivity|split; [reflexivity|]].
  intros clk' request' Hm' Hp'.
  rewrite (respond_health clk' request' Hm' Hp'), with_cors_field.
  intros H; vm_compute in H; discriminate H.
Qed.

(** The example of Ada Lovelace again. *)
Lemma success_reports_authenticated_witness :
  field ["authentication_analysis"; "authenticated"]%string
    (respond Examples.noon
       (Examples.post_process (Some "Bearer demo-secure-token"%string) None
          (Decoded (VDict Examples.ada))))
  = Some (VBool true).
Proof.
  apply (proj1 (success_reports_authenticated Examples.noon
                  (Examples.post_process (Some "Bearer demo-secure-token"%string) None
                     (Decoded (VDict Examples.ada)))
                  eq_refl eq_refl eq_refl)).
Defined.

(** C10: two POSTs to /process that are both answered with status 200 and
    whose bodies give the same firstName, lastName and textData agree on
    message, data_length, authenticated and service, whatever their clocks,
    their other headers and the spelling of their Authorization scheme. *)
Theorem answer_depends_on_user_data_only (clk1 clk2 : Clock) (r1 r2 : Request)
    (d1 d2 : list (str * value)) :
  method r1 = lit "POST" -> url_path r1 = lit "/process" ->
  method r2 = lit "POST" -> url_path r2 = lit "/process" ->
  body r1 = Decoded (VDict d1) -> body r2 = Decoded (VDict d2) ->
  (forall f, In f fields -> get (lit f) d1 = get (lit f) d2) ->
  status (respond clk1 r1) = 200%N -> status (respond clk2 r2) = 200%N ->
  forall keys,
    In keys [["message"]; ["processing_details"; "data_length"];
             ["authentication_analysis"; "authenticated"];
             ["authentication_analysis"; "service"]]%string ->
    field keys (respond clk1 r1) = field keys (respond clk2 r2).
Proof.
  intros Hm1 Hp1 Hm2 Hp2 Hb1 Hb2 Hd Hs1 Hs2 keys Hk.
  destruct (respond_success_inv clk1 r1 Hm1 Hp1 Hs1) as [x1 [V1 E1]].
  destruct (respond_success_inv clk2 r2 Hm2 Hp2 Hs2) as [x2 [V2 E2]].
  rewrite Hb1 in V1; rewrite Hb2 in V2; cbn [received_body] in V1, V2.
  apply validate_inv in V1; apply validate_inv in V2.
  destruct V1 as [F1 [L1 T1]]; destruct V2 as [F2 [L2 T2]].
  assert (X : x1 = x2).
  { rewrite (Hd "firstName"%string) in F1 by (simpl; auto).
    rewrite (Hd "lastName"%string) in L1 by (simpl; auto).
    rewrite (Hd "textData"%string) in T1 by (simpl; auto).
    destruct x1, x2; cbn [firstName lastName textData] in *; congruence. }
  subst x2; rewrite E1, E2, !with_cors_field.
  simpl in Hk; destruct Hk as [K|[K|[K|[K|[]]]]]; subst keys; reflexivity.
Qed.

(** The same user data at two times, with and without an origin, with two
    spellings of the scheme and with an extra key in one body. *)
Lemma answer_depends_on_user_data_only_witness :
  field ["message"%string]
    (respond Examples.noon
       (Examples.post_process (Some "Bearer demo-secure-token"%string) None
          (Decoded (VDict Examples.ada))))
  = field ["message"%string]
      (respond (fun _ => mk_datetime 1999 12 31 23 59 59 999999)
         (Examples.post_process (Some "bearer demo-secure-token"%string)
            (Some Examples.frontend)
            (Decoded (VDict ((lit "note", VInt 1) :: Examples.ada))))).
Proof.
  apply (answer_depends_on_user_data_only Examples.noon
           (fun _ => mk_datetime 1999 12 31 23 59 59 999999)
           (Examples.post_process (Some "Bearer demo-secure-token"%string) None
              (Decoded (VDict Examples.ada)))
           (Examples.post_process (Some "bearer demo-secure-token"%string)
              (Some Examples.frontend)
              (Decoded (VDict ((lit "note", VInt 1) :: Examples.ada))))
           Examples.ada ((lit "note", VInt 1) :: Examples.ada));
    try reflexivity.
  - intros f [<-|[<-|[<-|[]]]]; reflexivity.
  - simpl; auto.
Defined.

(** ** Further properties of the application *)

(** *** Who gets through the auth check *)

Lemma respond_success_encodable clk request :
  method request = lit "POST" -> url_path request = lit "/process" ->
  status (respond clk request) = 200%N ->
  exists data,
    request_body_to_args (received_body (body request)) = inl data
    /\ encodable (firstName data) = true /\ encodable (lastName data) = true
    /\ encodable (textData data) = true
    /\ Depends security verify_token request clk {| state := app; reads := 0 |}
       = (Returned authenticated_context, {| state := app; reads := 0 |}).
Proof.
  intros Hm Hp; rewrite respond_fst.
  destruct (process_route_cases clk request Hm Hp)
    as [[pos [error [_ R]]]|[[_ R]|[[_ [e [_ [Hs R]]]]|[[_ [_ [errs [_ R]]]]
        |[_ [Ha [data [Hv R]]]]]]]];
    rewrite R; cbn [fst].
  - destruct (finish_validation_status middleware request [json_invalid pos error])
      as [E|E]; rewrite E; intros H; discriminate H.
  - rewrite with_cors_status; intros H; discriminate H.
  - rewrite with_cors_status.
    cbn [json_response make_response status].
    destruct Hs as [Hs|Hs]; rewrite Hs; intros H; discriminate H.
  - destruct (finish_validation_status middleware request errs)
      as [E|E]; rewrite E; intros H; discriminate H.
  - destruct (encodable (firstName data)) eqn:Ef, (encodable (lastName data)) eqn:El,
      (encodable (textData data)) eqn:Et; cbn [andb]; intros H; try discriminate H.
    exists data; repeat split; assumption.
Qed.

(** X1: an answer 200 to a POST of /process is only ever given to a request
    whose Authorization header is a bearer scheme, a space and a credential
    that is "demo-secure-token" once the white space around it is taken
    off. *)
Theorem success_requires_the_token (clk : Clock) (request : Request) :
  method request = lit "POST" -> url_path request = lit "/process" ->
  status (respond clk request) = 200%N ->
  exists sch tok,
    authorization request = Some (authorization_value sch tok)
    /\ lower sch = lit "bearer"
    /\ strip tok = lit "demo-secure-token".
Proof.
  intros Hm Hp Hs.
  destruct (respond_success_encodable clk request Hm Hp Hs) as [data [_ [_ [_ [_ Ha]]]]].
  destruct (auth_returns request clk _ _ _ Ha) as [sch [Hh Hl]].
  exists sch, (lit "demo-secure-token"); repeat split; assumption.
Qed.

(** The example of Ada Lovelace, whose header is "Bearer demo-secure-token". *)
Lemma success_requires_the_token_witness :
  exists sch tok,
    Some (lit "Bearer demo-secure-token") = Some (authorization_value sch tok)
    /\ lower sch = lit "bearer"
    /\ strip tok = lit "demo-secure-token".
Proof.
  apply (success_requires_the_token Examples.noon
           (Examples.post_process (Some "Bearer demo-secure-token"%string) None
              (Decoded (VDict Examples.ada)))
           eq_refl eq_refl eq_refl).
Defined.

(** X3: a POST to /process is answered 200 after exactly two readings of the
    clock; or with the 500 answer, after two readings (what process_data
    returned does not render) or none (the errors of validation do not
    render); or else 400, 401, 403 or 422 with a body that has a detail and
    without any reading of the clock. *)
Theorem process_answers (clk : Clock) (request : Request) :
  method request = lit "POST" -> url_path request = lit "/process" ->
  (status (respond clk request) = 200%N
   /\ snd (respond_with process_data clk request) = 2)
  \/ (respond clk request = internal_server_error
      /\ (snd (respond_with process_data clk request) = 2
          \/ snd (respond_with process_data clk request) = 0))
  \/ ((status (respond clk request) = 400%N
       \/ status (respond clk request) = 401%N
       \/ status (respond clk request) = 403%N
       \/ status (respond clk request) = 422%N)
      /\ (exists v, field ["detail"%string] (respond clk request) = Some v)
      /\ snd (respond_with process_data clk request) = 0).
Proof.
  intros Hm Hp; rewrite respond_fst.
  assert (V : forall errs,
             finish middleware request (RequestValidationError errs) = internal_server_error
             \/ (status (finish middleware request (RequestValidationError errs)) = 422%N
                 /\ exists v, field ["detail"%string]
                                (finish middleware request (RequestValidationError errs))
                              = Some v)).
  { intros errs; destruct (finish_validation middleware request errs) as [[js E]|E];
      rewrite E; [right|left; reflexivity].
    rewrite with_cors_status, with_cors_field; split; [reflexivity|eexists; reflexivity]. }
  destruct (process_route_cases clk request Hm Hp)
    as [[pos [error [_ R]]]|[[_ R]|[[_ [e [_ [Hs R]]]]|[[_ [_ [errs [_ R]]]]
        |[_ [_ [data [_ R]]]]]]]];
    rewrite R; cbn [fst snd].
  - destruct (V [json_invalid pos error]) as [E|[E1 E2]].
    + right; left; split; [assumption|right; reflexivity].
    + right; right; repeat split; auto.
  - right; right; rewrite with_cors_status, with_cors_field.
    split; [left; reflexivity|split; [eexists; reflexivity|reflexivity]].
  - right; right; rewrite with_cors_status, with_cors_field.
    split; [|split; [eexists; reflexivity|reflexivity]].
    cbn [json_response make_response status].
    destruct Hs as [Hs|Hs]; rewrite Hs; auto.
  - destruct (V errs) as [E|[E1 E2]].
    + right; left; split; [assumption|right; reflexivity].
    + right; right; repeat split; auto.
  - destruct (encodable (firstName data) && encodable (lastName data)
              && encodable (textData data)).
    + left; rewrite with_cors_status; split; reflexivity.
    + right; left; split; [reflexivity|left; reflexivity].
Qed.

(** A wrong token: no reading of the clock. *)
Lemma process_answers_witness :
  snd (respond_with process_data Examples.noon
         (Examples.post_process (Some "Bearer not-the-token"%string) None
            (Decoded (VDict Examples.ada)))) = 0.
Proof.
  destruct (process_answers Examples.noon
              (Examples.post_process (Some "Bearer not-the-token"%string) None
                 (Decoded (VDict Examples.ada)))
              eq_refl eq_refl) as [[H2 _]|[[H5 _]|[_ [_ H0]]]].
  - vm_compute in H2; discriminate H2.
  - apply (f_equal status) in H5; vm_compute in H5; discriminate H5.
  - exact H0.
Defined.

(** *** Which bodies are accepted *)



Lemma is_text_get (d : list (str * value)) (f : string) :
  is_text d f = true -> exists s, get (lit f) d = Some (VStr s).
Proof.
  unfold is_text; destruct (get (lit f) d) as [[| | | | |s| |]|];
    intros H; try discriminate H.
  exists s; reflexivity.
Qed.

Lemma failing_nil (d : list (str * value)) :
  failing d = [] <->
  is_text d "firstName" = true /\ is_text d "lastName" = true
  /\ is_text d "textData" = true.
Proof.
  unfold failing, fields; cbn [filter].
  destruct (is_text d "firstName"), (is_text d "lastName"), (is_text d "textData");
    cbn [negb]; split; intros H; try discriminate H; auto;
    destruct H as [H1 [H2 H3]]; discriminate.
Qed.



(** The same object sent with a Content-Type that is not JSON is not
    decoded, and is answered 422. *)
Lemma undecoded_body_is_unprocessable :
  status (respond Examples.noon
            (Examples.post_process (Some "Bearer demo-secure-token"%string) None
               (Undecoded (Some (lit "{}"))))) = 422%N.
Proof. reflexivity. Qed.

(** *** The timestamps *)

Lemma isoformat_inj (d1 d2 : datetime) :
  valid d1 = true -> valid d2 = true -> isoformat d1 = isoformat d2 -> d1 = d2.
Proof.
  intros V1 V2 E.
  pose proof (parse_isoformat d1 V1) as P1.
  rewrite E, (parse_isoformat d2 V2) in P1; congruence.
Qed.

(** X4: in an answer 200 of /process, the timestamp of
    authentication_analysis is the first reading of the clock and
    processed_at the second, both written so that they read back as ISO-8601
    to those readings. *)
Theorem process_timestamps_are_two_readings (clk : Clock) (request : Request) :
  method request = lit "POST" -> url_path request = lit "/process" ->
  status (respond clk request) = 200%N ->
  valid (clk 0) = true -> valid (clk 1) = true ->
  exists t1 t2,
    field ["authentication_analysis"; "timestamp"]%string (respond clk request)
    = Some (VStr t1)
    /\ parse_iso8601 t1 = Some (clk 0)
    /\ field ["processing_details"; "processed_at"]%string (respond clk request)
       = Some (VStr t2)
    /\ parse_iso8601 t2 = Some (clk 1).
Proof.
  intros Hm Hp Hs V0 V1.
  destruct (respond_success_inv clk request Hm Hp Hs) as [data [_ E]].
  exists (isoformat (clk 0)), (isoformat (clk 1)).
  rewrite E, !with_cors_field.
  split; [reflexivity|split; [apply parse_isoformat; assumption|]].
  split; [reflexivity|apply parse_isoformat; assumption].
Qed.

(** At noon: the second timestamp is a microsecond after the first. *)
Lemma process_timestamps_are_two_readings_witness :
  exists t1 t2,
    field ["authentication_analysis"; "timestamp"]%string
      (respond Examples.noon
         (Examples.post_process (Some "Bearer demo-secure-token"%string) None
            (Decoded (VDict Examples.ada))))
    = Some (VStr t1)
    /\ parse_iso8601 t1 = Some (mk_datetime 2024 2 29 12 0 0 0)
    /\ field ["processing_details"; "processed_at"]%string
         (respond Examples.noon
            (Examples.post_process (Some "Bearer demo-secure-token"%string) None
               (Decoded (VDict Examples.ada))))
       = Some (VStr t2)
    /\ parse_iso8601 t2 = Some (mk_datetime 2024 2 29 12 0 0 1).
Proof.
  apply (process_timestamps_are_two_readings Examples.noon
           (Examples.post_process (Some "Bearer demo-secure-token"%string) None
              (Decoded (VDict Examples.ada)))
           eq_refl eq_refl eq_refl eq_refl eq_refl).
Defined.

(** X5: two answers of /health carry the same timestamp exactly when the
    clock read the same at both. *)
Theorem health_timestamp_identifies_the_reading (clk1 clk2 : Clock) (r1 r2 : Request) :
  method r1 = lit "GET" -> url_path r1 = lit "/health" ->
  method r2 = lit "GET" -> url_path r2 = lit "/health" ->
  valid (clk1 0) = true -> valid (clk2 0) = true ->
  (field ["timestamp"%string] (respond clk1 r1)
   = field ["timestamp"%string] (respond clk2 r2)
   <-> clk1 0 = clk2 0).
Proof.
  intros Hm1 Hp1 Hm2 Hp2 V1 V2.
  rewrite (respond_health clk1 r1 Hm1 Hp1), (respond_health clk2 r2 Hm2 Hp2).
  rewrite !with_cors_field.
  change (Some (VStr (isoformat (clk1 0))) = Some (VStr (isoformat (clk2 0)))
          <-> clk1 0 = clk2 0).
  split.
  - intros H; apply isoformat_inj; [assumption|assumption|congruence].
  - intros ->; reflexivity.
Qed.

(** Two clocks that differ by the microsecond give two timestamps. *)
Lemma health_timestamp_identifies_the_reading_witness :
  field ["timestamp"%string] (respond Examples.noon (Examples.get_health None))
  <> field ["timestamp"%string]
       (respond (fun n => Examples.noon (S n)) (Examples.get_health None)).
Proof.
  intros H.
  apply (proj1 (health_timestamp_identifies_the_reading Examples.noon
                  (fun n => Examples.noon (S n))
                  (Examples.get_health None) (Examples.get_health None)
                  eq_refl eq_refl eq_refl eq_refl eq_refl eq_refl)) in H.
  discriminate H.
Defined.

(** *** The greeting *)

(** X6: the message does not tell where firstName ends and lastName begins:
    moving a word from the end of one to the start of the other gives two
    different inputs that [process_data] answers with the same message and
    the same data_length. *)
Theorem message_does_not_delimit_names (fn x ln td : str) (auth : value)
    (clk : Clock) (w : World (FastAPI Endpoint)) :
  let a := {| firstName := fn ++ lit " " ++ x; lastName := ln; textData := td |} in
  let b := {| firstName := fn; lastName := x ++ lit " " ++ ln; textData := td |} in
  a <> b
  /\ exists va vb,
       fst (process_data a auth clk w) = Returned va
       /\ fst (process_data b auth clk w) = Returned vb
       /\ lookup ["message"%string] va = lookup ["message"%string] vb
       /\ lookup ["processing_details"; "data_length"]%string va
          = lookup ["processing_details"; "data_length"]%string vb.
Proof.
  cbv zeta; split.
  - intros H; apply (f_equal firstName) in H; cbn [firstName] in H.
    apply (f_equal (@List.length char)) in H.
    rewrite length_app in H; simpl in H; lia.
  - rewrite !process_data_run; cbn [fst].
    eexists; eexists; split; [reflexivity|split; [reflexivity|]].
    split; [|reflexivity].
    unfold processed; cbn [firstName lastName textData].
    change (lookup ["message"%string] (VDict ?d)) with (get (lit "message") d).
    cbn [lookup item get]. 
    repeat rewrite <- List.app_assoc. reflexivity.
Qed.

(** *** Cross-origin requests *)

(** The routes look at the method, the path, the Authorization header and
    the body of a request, and at nothing else. *)
Lemma router_ext process (r r' : Request) clk w :
  method r = method r' -> url_path r = url_path r' ->
  authorization r = authorization r' -> body r = body r' ->
  Router_call (handle_with process) (routes app) r clk w
  = Router_call (handle_with process) (routes app) r' clk w.
Proof.
  intros Hm Hp Ha Hb; unfold Router_call.
  assert (F : find_route (routes app) r None = find_route (routes app) r' None)
    by (unfold find_route, app; simpl; rewrite Hm, Hp; reflexivity).
  rewrite F; destruct (find_route (routes app) r' None) as [rt|[rt|]]; try reflexivity.
  destruct (endpoint rt); cbn [handle_with]; [reflexivity|].
  unfold request_handler_with_body, Depends, security, HTTPBearer_call.
  rewrite Hb, Ha; reflexivity.
Qed.

Lemma finish_any_origin self (r1 r2 : Request) (x : result Response) :
  status (finish self r1 x) = status (finish self r2 x)
  /\ rendered (finish self r1 x) = rendered (finish self r2 x).
Proof.
  unfold finish; destruct (handled x);
    rewrite ?with_cors_status, ?with_cors_rendered; split; reflexivity.
Qed.

(** X7: unless the request is a preflight request, its Origin header changes
    neither the status nor the content of the answer: both are those of the
    same request sent without an origin. *)
Theorem origin_changes_headers_only (clk : Clock) (request : Request) :
  preflight request = false ->
  status (respond clk request) = status (respond clk (without_origin request))
  /\ rendered (respond clk request) = rendered (respond clk (without_origin request)).
Proof.
  intros H.
  rewrite !respond_fst, !respond_with_not_preflight by assumption.
  cbn [fst].
  rewrite (router_ext process_data request (without_origin request) clk
             {| state := app; reads := 0 |} eq_refl eq_refl eq_refl eq_refl).
  apply finish_any_origin.
Qed.

(** A wrong token from an origin outside the list is still answered 401. *)
Lemma origin_changes_headers_only_witness :
  status (respond Examples.noon
            (Examples.post_process (Some "Bearer not-the-token"%string)
               (Some "https://elsewhere.example"%string) (Decoded (VDict Examples.ada))))
  = status (respond Examples.noon
              (Examples.post_process (Some "Bearer not-the-token"%string) None
                 (Decoded (VDict Examples.ada)))).
Proof.
  apply (proj1 (origin_changes_headers_only Examples.noon
                  (Examples.post_process (Some "Bearer not-the-token"%string)
                     (Some "https://elsewhere.example"%string)
                     (Decoded (VDict Examples.ada)))
                  eq_refl)).
Defined.

Lemma plain_json (v : value) (st : N) :
  st <> 500%N -> plain_result (of_option (JSONResponse v st [])).
Proof.
  intros Hst; unfold JSONResponse; destruct (renderable v); [right|left; reflexivity].
  eexists; split; [reflexivity|split; [exact Hst|left; reflexivity]].
Qed.

Lemma process_handler_plain clk request (w : World (FastAPI Endpoint)) :
  plain (fst (request_handler_with_body (Depends security verify_token)
                process_data request clk w)).
Proof.
  destruct (readable_cases (body request)) as [Hb|[[pos [error Hb]]|Hb]].
  - destruct (auth_cases request clk w) as [E|[e [E _]]].
    + destruct (request_body_to_args (D := UserData) (received_body (body request)))
        as [data|errs] eqn:Hv.
      * rewrite (process_handler_valid request clk w data Hb E Hv); cbn [fst].
        destruct (encodable (firstName data) && encodable (lastName data)
                  && encodable (textData data)); [right|left; reflexivity].
        eexists; split; [reflexivity|split; [discriminate|left; reflexivity]].
      * rewrite (handler_body_invalid (Depends security verify_token) process_data
                   request clk w authenticated_context w errs Hb E Hv); cbn [fst].
        unfold plain, handled, request_validation_exception_handler.
        destruct (all_some (map jsonable_error errs)) as [js|]; [|left; reflexivity].
        apply (plain_json (VDict [(lit "detail", VList js)]) 422); discriminate.
    + rewrite (handler_dependency_raised (Depends security verify_token) process_data
                 request clk w e w Hb E); cbn [fst].
      destruct (auth_raises request clk w e w E) as [_ [Hh [Hs Hr]]].
      unfold plain, handled, http_exception_handler, JSONResponse.
      rewrite Hr, Hh; right.
      eexists; split; [reflexivity|split; [|left; reflexivity]].
      cbn [json_response make_response status].
      destruct Hs as [Hs|Hs]; rewrite Hs; discriminate.
  - unfold request_handler_with_body; rewrite Hb; cbn [fst raise_validation].
    unfold plain, handled; rewrite json_invalid_shown; right.
    eexists; split; [reflexivity|split; [discriminate|left; reflexivity]].
  - unfold request_handler_with_body; rewrite Hb; right.
    eexists; split; [reflexivity|split; [discriminate|left; reflexivity]].
Qed.

Lemma router_plain clk request (w : World (FastAPI Endpoint)) :
  plain (fst (Router_call handle (routes app) request clk w)).
Proof.
  unfold Router_call.
  destruct (find_route (routes app) request None) as [rt|[rt|]].
  - destruct (endpoint rt); [|apply process_handler_plain].
    cbn [handle handle_with].
    unfold request_handler, health_check, bind, datetime_now, ret, constructed.
    cbn [fst].
    match goal with
    | |- plain (fst (match ?o with Some _ => _ | None => _ end _ _)) =>
        destruct o eqn:E
    end; [right|left; reflexivity].
    unfold JSONResponse in E; destruct (renderable _); inversion E; subst.
    eexists; split; [reflexivity|split; [discriminate|left; reflexivity]].
  - right; eexists; split; [reflexivity|split; [discriminate|right; eexists; reflexivity]].
  - right; eexists; split; [reflexivity|split; [discriminate|left; reflexivity]].
Qed.

Lemma cors_send_refused o has_cookie r :
  is_allowed_origin middleware o = false ->
  headers (cors_send middleware o has_cookie r)
  = raw_set (lit "access-control-allow-credentials") (lit "true") (headers r).
Proof.
  intros Ho; unfold cors_send; rewrite Ho.
  change (allow_all_origins middleware) with false.
  reflexivity.
Qed.

(** X8: take the answer to any request that carries an origin and is not a
    preflight request.  The 500 answer has no Access-Control-Allow-Origin;
    on every other answer, Access-Control-Allow-Origin repeats the origin when
    the origin is, character for character, one of the two strings of
    allow_origins, and is absent for every other origin. *)
Theorem origin_reflected_iff_listed (clk : Clock) (request : Request) (o : str) :
  origin request = Some o -> preflight request = false ->
  header "Access-Control-Allow-Origin" (headers (respond clk request))
  = if (status (respond clk request) =? 500)%N then None
    else if str_eqb o (lit "https://frontend-webapp-container.azurewebsites.net")
            || str_eqb o (lit "https://*.azurewebsites.net")
         then Some o else None.
Proof.
  intros Ho Hp.
  rewrite respond_fst, respond_with_not_preflight by assumption.
  cbn [fst]; change (handle_with process_data) with handle.
  destruct (router_plain clk request {| state := app; reads := 0 |})
    as [E|[r [E [Hst Hh]]]]; unfold finish; rewrite E; [reflexivity|].
  rewrite with_cors_status.
  apply N.eqb_neq in Hst; rewrite Hst.
  unfold with_cors; rewrite Ho.
  assert (Hal : is_allowed_origin middleware o
                = str_eqb o (lit "https://frontend-webapp-container.azurewebsites.net")
                  || str_eqb o (lit "https://*.azurewebsites.net")).
  { unfold is_allowed_origin.
    change (allow_all_origins middleware) with false.
    change (allow_origins middleware)
      with [lit "https://frontend-webapp-container.azurewebsites.net";
            lit "https://*.azurewebsites.net"].
    unfold mem; cbn [existsb]; now rewrite orb_false_r. }
  rewrite <- Hal.
  destruct (is_allowed_origin middleware o) eqn:Ea.
  - apply cors_send_allowed; assumption.
  - rewrite cors_send_refused by assumption.
    unfold header; rewrite raw_get_set_other by reflexivity.
    destruct Hh as [H|[v H]]; rewrite H; reflexivity.
Qed.

(** An origin under azurewebsites.net that is not spelled with the star. *)
Lemma origin_reflected_iff_listed_witness :
  header "Access-Control-Allow-Origin"
    (headers (respond Examples.noon
                (Examples.get_health (Some "https://foo.azurewebsites.net"%string))))
  = None.
Proof.
  apply (origin_reflected_iff_listed Examples.noon
           (Examples.get_health (Some "https://foo.azurewebsites.net"%string))
           (lit "https://foo.azurewebsites.net") eq_refl eq_refl).
Defined.

Lemma preflight_status o m rh :
  status (preflight_response middleware o m rh)
  = if is_allowed_origin middleware o && mem m (allow_methods middleware)
    then 200%N else 400%N.
Proof.
  unfold preflight_response.
  change (allow_all_headers middleware) with true.
  destruct (is_allowed_origin middleware o), (mem m (allow_methods middleware)), rh;
    reflexivity.
Qed.

Lemma allowed_methods_are_three (m : str) :
  mem m (allow_methods middleware) = true <->
  m = lit "GET" \/ m = lit "POST" \/ m = lit "OPTIONS".
Proof.
  change (allow_methods middleware) with [lit "GET"; lit "POST"; lit "OPTIONS"].
  unfold mem; cbn [existsb].
  rewrite orb_false_r, !orb_true_iff, !str_eqb_eq; reflexivity.
Qed.

(** X9: a preflight request (an origin, OPTIONS and
    Access-Control-Request-Method) is answered by the CORS middleware alone,
    whatever its path, Authorization header and body: no function of app.py
    runs and the clock is not read.  The answer is 200 when the origin is one
    of the two strings of allow_origins and the requested method is GET,
    POST or OPTIONS, and 400 otherwise. *)
Theorem preflight_is_answered_by_the_middleware
    (process : UserData -> value -> M (FastAPI Endpoint) value)
    (clk : Clock) (request : Request) (o m : str) :
  origin request = Some o -> method request = lit "OPTIONS" ->
  access_control_request_method request = Some m ->
  respond_with process clk request = (respond clk request, 0)
  /\ (status (respond clk request) = 200%N \/ status (respond clk request) = 400%N)
  /\ (status (respond clk request) = 200%N <->
      (o = lit Examples.frontend \/ o = lit "https://*.azurewebsites.net")
      /\ (m = lit "GET" \/ m = lit "POST" \/ m = lit "OPTIONS")).
Proof.
  intros Ho Hm Ha.
  assert (R : forall p, respond_with p clk request
                        = (preflight_response middleware o m
                             (access_control_request_headers request), 0)).
  { intros p; unfold respond_with.
    change (FastAPI_call (handle_with p) request clk {| state := app; reads := 0 |})
      with (ServerErrorMiddleware
              (CORSMiddleware_call middleware
                 (ExceptionMiddleware (Router_call (handle_with p) (routes app))))
              request clk {| state := app; reads := 0 |}).
    unfold ServerErrorMiddleware, CORSMiddleware_call; rewrite Ho, Ha, Hm; reflexivity. }
  rewrite respond_fst, !R; cbn [fst].
  rewrite preflight_status.
  split; [reflexivity|].
  rewrite <- allowed_origins_are_literal, <- allowed_methods_are_three.
  destruct (is_allowed_origin middleware o), (mem m (allow_methods middleware));
    cbn [andb]; (split; [auto|]); split; intros H; try discriminate H;
    try reflexivity; auto; destruct H as [H1 H2]; discriminate.
Qed.

(** A preflight request for /process from the front end, with no
    Authorization header at all; the function put in the place of process_data
    would raise if it were called. *)
Lemma preflight_is_answered_by_the_middleware_witness :
  status (respond Examples.noon
            {| method := lit "OPTIONS"; url_path := lit "/process";
               authorization := None; origin := Some (lit Examples.frontend);
               cookie := None;
               access_control_request_method := Some (lit "POST");
               access_control_request_headers := Some (lit "authorization");
               body := Empty |}) = 200%N.
Proof.
  apply (proj2 (proj2 (preflight_is_answered_by_the_middleware
                         (fun _ _ => raise invalid_token) Examples.noon
                         {| method := lit "OPTIONS"; url_path := lit "/process";
                            authorization := None; origin := Some (lit Examples.frontend);
                            cookie := None;
                            access_control_request_method := Some (lit "POST");
                            access_control_request_headers := Some (lit "authorization");
                            body := Empty |}
                         (lit Examples.frontend) (lit "POST")
                         eq_refl eq_refl eq_refl))).
  split; [left; reflexivity|right; left; reflexivity].
Defined.

(** *** Methods that a route does not take *)

Lemma cors_send_keeps (k : str) o has_cookie r :
  str_eqb k (lit "access-control-allow-credentials") = false ->
  str_eqb k (lit "access-control-allow-origin") = false ->
  str_eqb k (lit "vary") = false ->
  raw_get k (headers (cors_send middleware o has_cookie r)) = raw_get k (headers r).
Proof.
  intros H1 H2 H3; unfold cors_send.
  change (allow_all_origins middleware) with false.
  change (simple_headers middleware)
    with [(lit "access-control-allow-credentials", lit "true")].
  cbn [andb negb headers update_headers fold_left fst snd].
  destruct (is_allowed_origin middleware o).
  - unfold allow_explicit_origin, add_vary_header, set_header, header.
    change (lower (lit "vary")) with (lit "vary").
    change (lower (lit "Access-Control-Allow-Origin"))
      with (lit "access-control-allow-origin").
    destruct (raw_get (lit "vary") _);
      rewrite !raw_get_set_other by assumption; reflexivity.
  - rewrite raw_get_set_other by assumption; reflexivity.
Qed.

Lemma find_route_refused request (p m : string) :
  In (p, m) [("/health", "GET"); ("/process", "POST")]%string ->
  url_path request = lit p -> method request <> lit m ->
  exists rt, find_route (routes app) request None = inr (Some rt)
             /\ methods rt = [lit m].
Proof.
  intros Hin Hp Hm.
  change (routes app)
    with [ {| path := lit "/health"; methods := [lit "GET"];
              endpoint := health_check_endpoint |};
           {| path := lit "/process"; methods := [lit "POST"];
              endpoint := process_data_endpoint |} ].
  apply str_eqb_neq in Hm.
  destruct Hin as [E|[E|[]]]; inversion E; subst p m;
    cbn [find_route path methods mem existsb]; rewrite Hp.
  - rewrite str_eqb_refl, Hm; cbn [orb].
    change (str_eqb (lit "/health") (lit "/process")) with false.
    eexists; split; reflexivity.
  - change (str_eqb (lit "/process") (lit "/health")) with false.
    rewrite str_eqb_refl, Hm; cbn [orb].
    eexists; split; reflexivity.
Qed.

(** X10: a request for /health with a method other than GET, or for /process
    with a method other than POST, that is not a preflight request is
    answered 405 with detail "Method Not Allowed" and an Allow header naming
    the method of the route; the token is not checked, the body is not
    validated and the clock is not read. *)
Theorem other_methods_are_refused (clk : Clock) (request : Request) (p m : string) :
  In (p, m) [("/health", "GET"); ("/process", "POST")]%string ->
  url_path request = lit p -> method request <> lit m ->
  preflight request = false ->
  status (respond clk request) = 405%N
  /\ rendered (respond clk request)
     = JSON (VDict [(lit "detail", VStr (lit "Method Not Allowed"))])
  /\ header "Allow" (headers (respond clk request)) = Some (lit m)
  /\ snd (respond_with process_data clk request) = 0.
Proof.
  intros Hin Hp Hm Hpre.
  destruct (find_route_refused request p m Hin Hp Hm) as [rt [Hr Hms]].
  rewrite respond_fst, respond_with_not_preflight by assumption.
  unfold Router_call; rewrite Hr, Hms.
  cbn [fst snd raise reads].
  rewrite finish_raised by reflexivity.
  cbn [status_code detail exc_headers].
  rewrite with_cors_status, with_cors_rendered.
  split; [reflexivity|split; [reflexivity|split; [|reflexivity]]].
  unfold with_cors, header.
  change (lower (lit "Allow")) with (lit "allow").
  destruct (origin request); [rewrite cors_send_keeps by reflexivity|];
    reflexivity.
Qed.

(** A GET of /process that carries the right token. *)
Lemma other_methods_are_refused_witness :
  status (respond Examples.noon
            {| method := lit "GET"; url_path := lit "/process";
               authorization := Some (lit "Bearer demo-secure-token"); origin := None;
               cookie := None;
               access_control_request_method := None;
               access_control_request_headers := None;
               body := Empty |}) = 405%N.
Proof.
  assert (Hne : lit "GET" <> lit "POST")
    by (intros H; vm_compute in H; discriminate H).
  exact (proj1 (other_methods_are_refused Examples.noon
                  {| method := lit "GET"; url_path := lit "/process";
                     authorization := Some (lit "Bearer demo-secure-token");
                     origin := None; cookie := None;
                     access_control_request_method := None;
                     access_control_request_headers := None;
                     body := Empty |}
                  "/process" "POST"
                  (or_intror (or_introl eq_refl)) eq_refl Hne eq_refl)).
Defined.

(** *** The order of the checks on /process *)

(** X11: the body of a POST to /process is read before the token is looked
    at.  Bytes that [json.loads] rejects with a [JSONDecodeError] are
    answered 422 with one json_invalid error that gives the position of the
    defect and the decoder's message; bytes on which it raises anything else
    are answered 400 "There was an error parsing the body".  Both answers are
    the same with the right token, a wrong one or none, and the clock is not
    read. *)
Theorem undecodable_body_is_answered_first (clk : Clock) (request : Request) :
  method request = lit "POST" -> url_path request = lit "/process" ->
  (forall pos error, body request = Undecodable pos error ->
     status (respond clk request) = 422%N
     /\ rendered (respond clk request)
        = JSON (VDict [(lit "detail",
                        VList [VDict [(lit "type", VStr (lit "json_invalid"));
                                      (lit "loc", VList [VStr (lit "body"); VInt pos]);
                                      (lit "msg", VStr (lit "JSON decode error"));
                                      (lit "input", VDict []);
                                      (lit "ctx",
                                        VDict [(lit "error", VStr (lit error))])]])])
     /\ snd (respond_with process_data clk request) = 0)
  /\ (body request = Unreadable ->
      status (respond clk request) = 400%N
      /\ rendered (respond clk request)
         = JSON (VDict [(lit "detail",
                         VStr (lit "There was an error parsing the body"))])
      /\ snd (respond_with process_data clk request) = 0).
Proof.
  intros Hm Hp; split.
  - intros pos error Hb.
    rewrite respond_fst, respond_process_with by assumption.
    unfold request_handler_with_body; rewrite Hb.
    cbn [fst snd raise_validation reads].
    unfold finish, handled; rewrite json_invalid_shown.
    cbn [of_option]; rewrite with_cors_status, with_cors_rendered.
    split; [reflexivity|split; reflexivity].
  - intros Hb.
    rewrite respond_fst, respond_process_with by assumption.
    unfold request_handler_with_body; rewrite Hb.
    cbn [fst snd raise reads].
    rewrite finish_raised by reflexivity.
    rewrite with_cors_status, with_cors_rendered.
    split; [reflexivity|split; reflexivity].
Qed.

(** Bytes that are not JSON, sent without any token. *)
Lemma undecodable_body_is_answered_first_witness :
  status (respond Examples.noon
            (Examples.post_process None None (Undecodable 5 "Expecting value")))
  = 422%N.
Proof.
  exact (proj1 (proj1 (undecodable_body_is_answered_first Examples.noon
                         (Examples.post_process None None
                            (Undecodable 5 "Expecting value"))
                         eq_refl eq_refl)
                  5%Z "Expecting value"%string eq_refl)).
Defined.

(** X12: take a POST to /process whose body could be read.  Unless its
    Authorization header is a bearer scheme, a space and a credential that is
    "demo-secure-token" once the white space around it is taken off, it is
    answered 401 or 403 with a detail string, whatever the body holds: the
    body is not validated and the clock is not read. *)
Theorem without_the_token_the_body_is_not_looked_at (clk : Clock) (request : Request) :
  method request = lit "POST" -> url_path request = lit "/process" ->
  readable (body request) = true ->
  (forall sch tok, lower sch = lit "bearer" -> strip tok = lit "demo-secure-token" ->
     authorization request <> Some (authorization_value sch tok)) ->
  (status (respond clk request) = 401%N \/ status (respond clk request) = 403%N)
  /\ (exists d, rendered (respond clk request) = JSON (VDict [(lit "detail", VStr d)]))
  /\ snd (respond_with process_data clk request) = 0.
Proof.
  intros Hm Hp Hb Hno.
  rewrite respond_fst.
  destruct (process_route_cases clk request Hm Hp)
    as [[pos [error [Hu _]]]|[[Hu _]|[[_ [e [_ [Hs R]]]]|[[_ [Ha _]]|[_ [Ha _]]]]]].
  - rewrite Hu in Hb; discriminate Hb.
  - rewrite Hu in Hb; discriminate Hb.
  - rewrite R; cbn [fst snd].
    rewrite with_cors_status, with_cors_rendered.
    split; [exact Hs|split; [eexists; reflexivity|reflexivity]].
  - destruct (auth_returns request clk _ _ _ Ha) as [sch [Hh Hl]].
    exfalso; exact (Hno sch (lit "demo-secure-token") Hl eq_refl Hh).
  - destruct (auth_returns request clk _ _ _ Ha) as [sch [Hh Hl]].
    exfalso; exact (Hno sch (lit "demo-secure-token") Hl eq_refl Hh).
Qed.

(** An empty object sent with a token that has one character too many. *)
Lemma without_the_token_the_body_is_not_looked_at_witness :
  status (respond Examples.noon
            (Examples.post_process (Some "Bearer demo-secure-token2"%string) None
               (Decoded (VDict [])))) = 401%N
  \/ status (respond Examples.noon
               (Examples.post_process (Some "Bearer demo-secure-token2"%string) None
                  (Decoded (VDict [])))) = 403%N.
Proof.
  apply (without_the_token_the_body_is_not_looked_at Examples.noon
           (Examples.post_process (Some "Bearer demo-secure-token2"%string) None
              (Decoded (VDict [])))
           eq_refl eq_refl eq_refl).
  intros sch tok Hl Ht H.
  assert (Hp : partition_space (lit "Bearer demo-secure-token2")
               = (sch, tok)).
  { injection H as H; rewrite H; apply partition_space_app, bearer_no_space, Hl. }
  vm_compute in Hp; injection Hp as Hsch Htok; subst tok.
  vm_compute in Ht; discriminate Ht.
Defined.
